(** * Spectra chat client: session reconciliation and message sending

    A shallow embedding of the client of the Spectra chat application:
    the typed REST helpers and local-storage helpers of [lib/api.ts] and
    the event handlers of the [Chat] component ([initializeUserAndChat],
    the [onAuthStateChange] listener and [handleSubmit]).

    The handlers are asynchronous TypeScript functions that mutate React
    state, the browser's [localStorage] and, through [fetch], the backend.
    They are embedded in a state-and-exception monad over a [World] that
    holds the component state, the local storage with the quota the
    browser enforces on it, the state of the environment behind [fetch],
    and two append-only logs (the backend requests issued and the
    local-storage mutations performed) that are only written, never read,
    by the embedded code.

    The storage object itself is taken to be reachable: [getItem] and
    [removeItem] return.  [setItem] throws when the browser refuses the
    content it would produce (a full or write-protected storage), and then
    stores nothing. *)

From Stdlib Require Import Ascii String QArith.
From stdpp Require Import base option list strings pretty gmap.

Open Scope string_scope.
Open Scope list_scope.

(** ** JavaScript values *)

(** A thrown value.  [ApiError] is the class of [lib/api.ts]; every other
    instance of [Error] (a [TypeError] of [fetch], a [SyntaxError] of
    [response.json()]) is an [OtherError]; [NonErrorValue] stands for a
    thrown value that is not an instance of [Error]. *)
Inductive exn : Type :=
  | ApiError (status : N) (message : string)
  | OtherError (message : string)
  | NonErrorValue.

(** [err instanceof Error ? err.message : fallback] *)
Definition message_or (err : exn) (fallback : string) : string :=
  match err with
  | ApiError _ m => m
  | OtherError m => m
  | NonErrorValue => fallback
  end.

(** The result of running a piece of code: it returns or it throws. *)
Inductive Outcome (A : Type) : Type :=
  | Returned (a : A)
  | Thrown (e : exn).
Arguments Returned {A} a.
Arguments Thrown {A} e.

(** Truthiness of a string: every string but the empty one. *)
Definition truthy (s : string) : bool := negb (String.eqb s "").

(** [a || b] on strings. *)
Definition js_or (a b : string) : string := if truthy a then a else b.

(** [a || b] where [a] may be [undefined]. *)
Definition js_or_opt (a : option string) (b : string) : string :=
  match a with
  | Some s => js_or s b
  | None => b
  end.

(** Strings are sequences of 8-bit code units; the white space and line
    terminators of that range are the ones [trim] removes. *)
Definition is_white_space (c : ascii) : bool :=
  let n := N_of_ascii c in
  ((9 <=? n) && (n <=? 13) || (n =? 32) || (n =? 160))%N.

Fixpoint trimStart (s : string) : string :=
  match s with
  | EmptyString => EmptyString
  | String c r => if is_white_space c then trimStart r else s
  end.

Fixpoint trimEnd (s : string) : string :=
  match s with
  | EmptyString => EmptyString
  | String c r =>
      let r' := trimEnd r in
      if is_white_space c && String.eqb r' "" then EmptyString else String c r'
  end.

(** [s.trim()] *)
Definition trim (s : string) : string := trimEnd (trimStart s).

(** [s.split("@")[0]]: the part of [s] before its first ["@"]. *)
Fixpoint split_at_0 (s : string) : string :=
  match s with
  | EmptyString => EmptyString
  | String c r => if Ascii.eqb c "@" then EmptyString else String c (split_at_0 r)
  end.

(** ** Data model of [lib/api.ts] *)

Module User.
Record t : Type := mk
  { id : string; email : string; name : string; created_at : string }.
End User.

Module ChatSession.
Record t : Type := mk
  { id : string; user_id : string; title : string; created_at : string }.
End ChatSession.

(** ["user" | "assistant"] *)
Inductive Role : Type := RoleUser | RoleAssistant.

Module BackendMessage.
Record t : Type := mk
  { id : string; session_id : string; role : Role; content : string;
    created_at : string }.
End BackendMessage.

Module Source.
Record t : Type := mk
  { title : option string; url : option string; score : option Q }.
End Source.

Module ChatResponse.
Record t : Type := mk
  { query : string; sources : list Source.t; final_answer : string }.
End ChatResponse.

(** The payloads of the remaining endpoints. *)
Module SessionsReply.
Record t : Type := mk { sessions : list ChatSession.t; user_id : string }.
End SessionsReply.

Module CreateReply.
Record t : Type := mk { user : User.t; session : ChatSession.t }.
End CreateReply.

Module StoreReply.
Record t : Type := mk { success : bool; session_id : string; role : string }.
End StoreReply.

Module MessagesReply.
Record t : Type := mk
  { session_id : string; message_count : N;
    messages : list BackendMessage.t }.
End MessagesReply.

(** ** Data model of the [Chat] component *)

(** ["user" | "ai"] *)
Inductive MessageType : Type := TypeUser | TypeAi.

Module Message.
Record t : Type := mk
  { id : string; type : MessageType; content : string;
    sources : option (list Source.t) }.
End Message.

(** The part of the identity provider's session the component reads. *)
Module AuthUser.
Record t : Type := mk
  { email : option string;
    (** [user_metadata?.full_name] *)
    full_name : option string }.
End AuthUser.

Module AuthSession.
Record t : Type := mk { user : AuthUser.t }.
End AuthSession.

(** The [useState] cells of [Chat]. *)
Record ChatState : Type := mkChatState
  { messages : list Message.t;
    input : string;
    loading : bool;
    error : option string;
    session : option AuthSession.t;
    authLoading : bool;
    authError : option string;
    currentUser : option User.t;
    chatSession : option ChatSession.t;
    initLoading : bool;
    profileOpen : bool }.

(** [useState] initial values. *)
Definition initialChatState : ChatState :=
  {| messages := []; input := ""; loading := false; error := None;
     session := None; authLoading := false; authError := None;
     currentUser := None; chatSession := None; initLoading := true;
     profileOpen := false |}.

(** ** The environment behind [fetch] *)

(** What [fetch] hands to [handleResponse]: the fields of [Response] that
    are read, with the bodies [response.text()] and [response.json()]
    resolve to (or reject with). *)
Record Response (T : Type) : Type := mkResponse
  { ok : bool;
    status : N;
    statusText : string;
    text : Outcome string;
    json : Outcome T }.
Arguments mkResponse {T}.
Arguments ok {T}.
Arguments status {T}.
Arguments statusText {T}.
Arguments text {T}.
Arguments json {T}.

(** [await fetch(...)] resolves to a response or rejects. *)
Inductive FetchResult (T : Type) : Type :=
  | Rejected (e : exn)
  | Resolved (r : Response T).
Arguments Rejected {T} e.
Arguments Resolved {T} r.

(** The backend is not part of the client: it is an arbitrary state
    machine answering the six requests of [lib/api.ts].  [Date_now] is
    the wall clock. *)
Class Backend (E : Type) : Type :=
  { post_users_register : string -> string -> E -> FetchResult User.t * E;
    get_chat_sessions : string -> E -> FetchResult SessionsReply.t * E;
    post_chat_create : string -> string -> E -> FetchResult CreateReply.t * E;
    post_messages_store :
      string -> Role -> string -> E -> FetchResult StoreReply.t * E;
    get_messages : string -> E -> FetchResult MessagesReply.t * E;
    get_chat_stream : string -> E -> FetchResult ChatResponse.t * E;
    Date_now : E -> N }.

(** The requests the client can issue, as logged in [calls]. *)
Inductive Call : Type :=
  | CallRegisterUser (email name : string)
  | CallGetUserSessions (userEmail : string)
  | CallCreateChatSession (userEmail title : string)
  | CallStoreMessage (sessionId : string) (role : Role) (content : string)
  | CallFetchMessages (sessionId : string)
  | CallSendChatMessage (message : string).

(** The mutations of [localStorage], as logged in [storage_log]. *)
Inductive StorageOp : Type :=
  | SetItem (key value : string)
  | RemoveItem (key : string).

(** [quota] is the browser's limit on the storage: [quota m = Some err]
    when the content [m] is refused, [err] being what [setItem] throws
    instead of producing it (a [QuotaExceededError]). *)
Record World (E : Type) : Type := mkWorld
  { ui : ChatState;
    localStorage : gmap string string;
    env : E;
    calls : list Call;
    storage_log : list StorageOp;
    quota : gmap string string -> option exn }.
Arguments mkWorld {E}.
Arguments ui {E}.
Arguments localStorage {E}.
Arguments env {E}.
Arguments calls {E}.
Arguments storage_log {E}.
Arguments quota {E}.

(** ** The monad of handlers *)

Definition M (E A : Type) : Type := World E -> Outcome A * World E.

Definition ret {E A} (a : A) : M E A := fun w => (Returned a, w).

Definition bind {E A B} (m : M E A) (k : A -> M E B) : M E B :=
  fun w =>
    match m w with
    | (Returned a, w') => k a w'
    | (Thrown e, w') => (Thrown e, w')
    end.

Definition gets {E A} (f : World E -> A) : M E A := fun w => (Returned (f w), w).

Definition modify {E} (f : World E -> World E) : M E unit :=
  fun w => (Returned tt, f w).

(** [try { body } catch (err) { handler err }] *)
Definition try_catch {E A} (body : M E A) (handler : exn -> M E A) : M E A :=
  fun w =>
    match body w with
    | (Returned a, w') => (Returned a, w')
    | (Thrown e, w') => handler e w'
    end.

(** [try { body } finally { final }]: [final] runs on both exits and the
    exit of [body] is kept unless [final] itself throws. *)
Definition try_finally {E A} (body : M E A) (final : M E unit) : M E A :=
  fun w =>
    match body w with
    | (r, w') =>
        match final w' with
        | (Returned _, w'') => (r, w'')
        | (Thrown e, w'') => (Thrown e, w'')
        end
    end.

#[global] Instance M_ret {E} : MRet (M E) := fun A => ret.
#[global] Instance M_bind {E} : MBind (M E) := fun A B k m => bind m k.

(** ** State updates *)

Definition with_messages (v : list Message.t) (s : ChatState) : ChatState :=
  {| messages := v; input := input s; loading := loading s; error := error s;
     session := session s; authLoading := authLoading s;
     authError := authError s; currentUser := currentUser s;
     chatSession := chatSession s; initLoading := initLoading s;
     profileOpen := profileOpen s |}.

Definition with_input (v : string) (s : ChatState) : ChatState :=
  {| messages := messages s; input := v; loading := loading s; error := error s;
     session := session s; authLoading := authLoading s;
     authError := authError s; currentUser := currentUser s;
     chatSession := chatSession s; initLoading := initLoading s;
     profileOpen := profileOpen s |}.

Definition with_loading (v : bool) (s : ChatState) : ChatState :=
  {| messages := messages s; input := input s; loading := v; error := error s;
     session := session s; authLoading := authLoading s;
     authError := authError s; currentUser := currentUser s;
     chatSession := chatSession s; initLoading := initLoading s;
     profileOpen := profileOpen s |}.

Definition with_error (v : option string) (s : ChatState) : ChatState :=
  {| messages := messages s; input := input s; loading := loading s; error := v;
     session := session s; authLoading := authLoading s;
     authError := authError s; currentUser := currentUser s;
     chatSession := chatSession s; initLoading := initLoading s;
     profileOpen := profileOpen s |}.

Definition with_session (v : option AuthSession.t) (s : ChatState) : ChatState :=
  {| messages := messages s; input := input s; loading := loading s;
     error := error s; session := v; authLoading := authLoading s;
     authError := authError s; currentUser := currentUser s;
     chatSession := chatSession s; initLoading := initLoading s;
     profileOpen := profileOpen s |}.

Definition with_authError (v : option string) (s : ChatState) : ChatState :=
  {| messages := messages s; input := input s; loading := loading s;
     error := error s; session := session s; authLoading := authLoading s;
     authError := v; currentUser := currentUser s;
     chatSession := chatSession s; initLoading := initLoading s;
     profileOpen := profileOpen s |}.

Definition with_currentUser (v : option User.t) (s : ChatState) : ChatState :=
  {| messages := messages s; input := input s; loading := loading s;
     error := error s; session := session s; authLoading := authLoading s;
     authError := authError s; currentUser := v;
     chatSession := chatSession s; initLoading := initLoading s;
     profileOpen := profileOpen s |}.

Definition with_chatSession (v : option ChatSession.t) (s : ChatState) : ChatState :=
  {| messages := messages s; input := input s; loading := loading s;
     error := error s; session := session s; authLoading := authLoading s;
     authError := authError s; currentUser := currentUser s;
     chatSession := v; initLoading := initLoading s;
     profileOpen := profileOpen s |}.

Definition with_initLoading (v : bool) (s : ChatState) : ChatState :=
  {| messages := messages s; input := input s; loading := loading s;
     error := error s; session := session s; authLoading := authLoading s;
     authError := authError s; currentUser := currentUser s;
     chatSession := chatSession s; initLoading := v;
     profileOpen := profileOpen s |}.

Definition with_profileOpen (v : bool) (s : ChatState) : ChatState :=
  {| messages := messages s; input := input s; loading := loading s;
     error := error s; session := session s; authLoading := authLoading s;
     authError := authError s; currentUser := currentUser s;
     chatSession := chatSession s; initLoading := initLoading s;
     profileOpen := v |}.

Definition on_ui {E} (f : ChatState -> ChatState) (w : World E) : World E :=
  {| ui := f (ui w); localStorage := localStorage w; env := env w;
     calls := calls w; storage_log := storage_log w; quota := quota w |}.

Definition on_storage {E} (f : gmap string string -> gmap string string)
    (op : StorageOp) (w : World E) : World E :=
  {| ui := ui w; localStorage := f (localStorage w); env := env w;
     calls := calls w; storage_log := storage_log w ++ [op];
     quota := quota w |}.

Definition on_env {E} (e : E) (c : Call) (w : World E) : World E :=
  {| ui := ui w; localStorage := localStorage w; env := e;
     calls := calls w ++ [c]; storage_log := storage_log w; quota := quota w |}.

Section Client.
Context {E : Type} `{!Backend E}.

(** *** [lib/api.ts] *)

Definition handleResponse {T} (response : Response T) : Outcome T :=
  if negb (ok response) then
    match text response with
    | Returned errorText =>
        Thrown (ApiError (status response)
                  ("API Error: " +:+ statusText response +:+ " - " +:+ errorText))
    | Thrown e => Thrown e
    end
  else json response.

(** [handleResponse(await fetch(...))] against the environment [e]: what
    the caller gets and the environment the request leaves behind. *)
Definition answer {T} (endpoint : E -> FetchResult T * E) (e : E)
    : Outcome T * E :=
  let '(r, e') := endpoint e in
  match r with
  | Rejected err => (Thrown err, e')
  | Resolved response => (handleResponse response, e')
  end.

(** A request as a step of a handler; it is entered in [calls]. *)
Definition request {T} (c : Call) (endpoint : E -> FetchResult T * E) : M E T :=
  fun w => let '(r, e') := answer endpoint (env w) in (r, on_env e' c w).

Definition registerUser (email name : string) : M E User.t :=
  request (CallRegisterUser email name) (post_users_register email name).

Definition getUserSessions (userEmail : string) : M E SessionsReply.t :=
  request (CallGetUserSessions userEmail) (get_chat_sessions userEmail).

Definition createChatSession (userEmail title : string) : M E CreateReply.t :=
  request (CallCreateChatSession userEmail title)
          (post_chat_create userEmail title).

Definition storeMessage (sessionId : string) (role : Role) (content : string)
    : M E StoreReply.t :=
  request (CallStoreMessage sessionId role content)
          (post_messages_store sessionId role content).

Definition fetchMessages (sessionId : string) : M E MessagesReply.t :=
  request (CallFetchMessages sessionId) (get_messages sessionId).

Definition sendChatMessage (message : string) : M E ChatResponse.t :=
  request (CallSendChatMessage message) (get_chat_stream message).

(** Local storage helpers *)

Definition SESSION_KEY : string := "current_session_id".

(** [localStorage.setItem(key, value)]: the item is stored, unless the
    browser refuses the resulting content; then the call throws and the
    storage is left as it was. *)
Definition setItem (key value : string) : M E unit :=
  fun w =>
    match quota w (<[key := value]> (localStorage w)) with
    | Some err => (Thrown err, w)
    | None => (Returned tt, on_storage (insert key value) (SetItem key value) w)
    end.

Definition saveCurrentSession (sessionId : string) : M E unit :=
  setItem SESSION_KEY sessionId.

(** [getItem] and [removeItem] of a storage that can be reached do not
    throw, whatever the storage holds. *)
Definition getCurrentSession : M E (option string) :=
  gets (fun w => localStorage w !! SESSION_KEY).

Definition clearCurrentSession : M E unit :=
  modify (on_storage (delete SESSION_KEY) (RemoveItem SESSION_KEY)).

(** *** The [Chat] component *)

Definition setMessages (v : list Message.t) : M E unit :=
  modify (on_ui (with_messages v)).
Definition setInput (v : string) : M E unit := modify (on_ui (with_input v)).
Definition setLoading (v : bool) : M E unit := modify (on_ui (with_loading v)).
Definition setError (v : option string) : M E unit :=
  modify (on_ui (with_error v)).
Definition setSession (v : option AuthSession.t) : M E unit :=
  modify (on_ui (with_session v)).
Definition setAuthError (v : option string) : M E unit :=
  modify (on_ui (with_authError v)).
Definition setCurrentUser (v : option User.t) : M E unit :=
  modify (on_ui (with_currentUser v)).
Definition setChatSession (v : option ChatSession.t) : M E unit :=
  modify (on_ui (with_chatSession v)).
Definition setInitLoading (v : bool) : M E unit :=
  modify (on_ui (with_initLoading v)).
Definition setProfileOpen (v : bool) : M E unit :=
  modify (on_ui (with_profileOpen v)).

(** [setMessages((prev) => [...prev, m])] *)
Definition pushMessage (m : Message.t) : M E unit :=
  modify (on_ui (fun s => with_messages (messages s ++ [m]) s)).

(** [session?.user?.email] when it is truthy, with the user it is read
    from; [None] when the guard [!session?.user?.email] holds. *)
Definition principal (s : option AuthSession.t) : option (AuthUser.t * string) :=
  match s with
  | Some a =>
      match AuthUser.email (AuthSession.user a) with
      | Some email => if truthy email then Some (AuthSession.user a, email) else None
      | None => None
      end
  | None => None
  end.

(** [session.user.user_metadata?.full_name ||
     session.user.email.split("@")[0]] *)
Definition displayName (user : AuthUser.t) (email : string) : string :=
  js_or_opt (AuthUser.full_name user) (split_at_0 email).

(** The element of [fetchMessages]'s reply as the view shows it. *)
Definition toUiMessage (msg : BackendMessage.t) : Message.t :=
  {| Message.id := BackendMessage.id msg;
     Message.type :=
       match BackendMessage.role msg with
       | RoleUser => TypeUser
       | RoleAssistant => TypeAi
       end;
     Message.content := BackendMessage.content msg;
     Message.sources := None |}.

(** "Step 3: Determine which session to use" of [initializeUserAndChat]
    (the block from [let activeSession] to the end of
    [if (!activeSession)]): the selected session and
    [shouldLoadMessages]. *)
Definition determineSession (email : string) (sessions : list ChatSession.t)
    : M E (ChatSession.t * bool) :=
  storedSessionId ← getCurrentSession;
  '(activeSession, shouldLoadMessages) ←
    match storedSessionId with
    | Some stored =>
        if truthy stored && (0 <? length sessions)%nat then
          match
            find (fun s => String.eqb (ChatSession.id s) stored) sessions
          with
          | Some s => mret (Some s, true)
          | None => clearCurrentSession;; mret (None, false)
          end
        else mret (None, false)
    | None => mret (None, false)
    end;
  match activeSession with
  | Some s => mret (s, shouldLoadMessages)
  | None =>
      match sessions with
      | s0 :: _ =>
          saveCurrentSession (ChatSession.id s0);;
          mret (s0, true)
      | [] =>
          reply ← createChatSession email "New Conversation";
          let newSession := CreateReply.session reply in
          saveCurrentSession (ChatSession.id newSession);;
          mret (newSession, false)
      end
  end.

Definition initializeUserAndChat : M E unit :=
  session ← gets (fun w => session (ui w));
  match principal session with
  | None => setInitLoading false
  | Some (user, email) =>
      try_finally
        (try_catch
           (setInitLoading true;;
            setError None;;
            user' ← registerUser email (displayName user email);
            setCurrentUser (Some user');;
            reply ← getUserSessions email;
            '(activeSession, shouldLoadMessages) ←
              determineSession email (SessionsReply.sessions reply);
            setChatSession (Some activeSession);;
            if shouldLoadMessages : bool then
              try_catch
                (reply' ← fetchMessages (ChatSession.id activeSession);
                 setMessages (map toUiMessage (MessagesReply.messages reply')))
                (fun msgErr => setError (Some "Failed to load message history"))
            else setMessages [])
           (fun err =>
              setError
                (Some (message_or err
                         "Initialization failed. Please try refreshing."));;
              clearCurrentSession;;
              setChatSession None;;
              setMessages []))
        (setInitLoading false)
  end.

(** The listener registered with [supabase.auth.onAuthStateChange];
    [isMounted] is the flag of the enclosing effect. *)
Definition onAuthStateChange (isMounted : bool)
    (newSession : option AuthSession.t) : M E unit :=
  if negb isMounted then mret tt
  else
    setSession newSession;;
    setAuthError None;;
    match newSession with
    | None =>
        clearCurrentSession;;
        setCurrentUser None;;
        setChatSession None;;
        setMessages [];;
        setProfileOpen false
    | Some _ => mret tt
    end.

Definition handleSubmit : M E unit :=
  input ← gets (fun w => input (ui w));
  if negb (truthy (trim input)) then mret tt
  else
    session ← gets (fun w => session (ui w));
    match principal session with
    | None => setError (Some "Please sign in to chat")
    | Some _ =>
        chatSession ← gets (fun w => chatSession (ui w));
        match chatSession with
        | None =>
            setError
              (Some "Chat session not initialized. Please refresh the page.")
        | Some chatSession =>
            now ← gets (fun w => Date_now (env w));
            let userMessage :=
              {| Message.id := pretty now; Message.type := TypeUser;
                 Message.content := input; Message.sources := None |} in
            pushMessage userMessage;;
            let userQuery := input in
            setInput "";;
            setLoading true;;
            setError None;;
            try_finally
              (try_catch
                 (storeMessage (ChatSession.id chatSession) RoleUser userQuery;;
                  data ← sendChatMessage userQuery;
                  storeMessage (ChatSession.id chatSession) RoleAssistant
                               (ChatResponse.final_answer data);;
                  now' ← gets (fun w => Date_now (env w));
                  let aiMessage :=
                    {| Message.id := pretty (now' + 1)%N;
                       Message.type := TypeAi;
                       Message.content :=
                         js_or (ChatResponse.final_answer data)
                               "No response generated";
                       Message.sources := Some (ChatResponse.sources data) |} in
                  pushMessage aiMessage)
                 (fun err =>
                    setError (Some (message_or err "Failed to fetch response"))))
              (setLoading false)
        end
    end.

End Client.

Arguments answer : simpl never.

(** The world a handler leaves behind, and what it returns. *)
Definition exec {E A} (m : M E A) (w : World E) : World E := snd (m w).
Definition outcome {E A} (m : M E A) (w : World E) : Outcome A := fst (m w).

(** The stored session pointer. *)
Definition pointer {E} (w : World E) : option string :=
  localStorage w !! SESSION_KEY.

(** ** The message store behind the backend

    What the client can rely on about the messages a backend keeps: a
    request to store a message that succeeds appends that message, a
    request that fails stores nothing, and the synthesis of an answer
    stores nothing. *)
Definition StoredMessage : Type := string * Role * string.

Class MessageStore {E : Type} `{!Backend E} (stored : E -> list StoredMessage)
    : Prop :=
  { store_appends sessionId role content e ack e' :
      answer (post_messages_store sessionId role content) e = (Returned ack, e') ->
      stored e' = stored e ++ [(sessionId, role, content)];
    store_failure_keeps sessionId role content e err e' :
      answer (post_messages_store sessionId role content) e = (Thrown err, e') ->
      stored e' = stored e;
    synthesis_keeps message e :
      stored (snd (answer (get_chat_stream message) e)) = stored e }.

(** ** A scripted backend

    A test double for concrete runs: every endpoint answers with the next
    reply of its own queue, and rejects (as [fetch] does when the network
    is down) once the queue is empty.  Any finite behaviour of a backend
    can be scripted this way. *)
Module Scripted.
Record t : Type := mk
  { register : list (FetchResult User.t);
    sessions : list (FetchResult SessionsReply.t);
    create : list (FetchResult CreateReply.t);
    store : list (FetchResult StoreReply.t);
    messages : list (FetchResult MessagesReply.t);
    chat : list (FetchResult ChatResponse.t);
    clock : N;
    (** the messages stored so far, oldest first *)
    kept : list StoredMessage }.

Definition next {T} (queue : list (FetchResult T)) : FetchResult T :=
  match queue with
  | r :: _ => r
  | [] => Rejected (OtherError "Failed to fetch")
  end.

(** [handleResponse] will return on [r]. *)
Definition accepted {T} (r : FetchResult T) : bool :=
  match r with
  | Resolved response =>
      ok response &&
      match json response with
      | Returned _ => true
      | Thrown _ => false
      end
  | Rejected _ => false
  end.

(** A message is stored exactly when the request to store it is answered
    with a success. *)
#[global] Instance backend : Backend t :=
  {| post_users_register _ _ e :=
       (next (register e),
        mk (tail (register e)) (sessions e) (create e) (store e)
           (messages e) (chat e) (clock e) (kept e));
     get_chat_sessions _ e :=
       (next (sessions e),
        mk (register e) (tail (sessions e)) (create e) (store e)
           (messages e) (chat e) (clock e) (kept e));
     post_chat_create _ _ e :=
       (next (create e),
        mk (register e) (sessions e) (tail (create e)) (store e)
           (messages e) (chat e) (clock e) (kept e));
     post_messages_store sessionId role content e :=
       (next (store e),
        mk (register e) (sessions e) (create e) (tail (store e))
           (messages e) (chat e) (clock e)
           (if accepted (next (store e))
            then kept e ++ [(sessionId, role, content)]
            else kept e));
     get_messages _ e :=
       (next (messages e),
        mk (register e) (sessions e) (create e) (store e)
           (tail (messages e)) (chat e) (clock e) (kept e));
     get_chat_stream _ e :=
       (next (chat e),
        mk (register e) (sessions e) (create e) (store e)
           (messages e) (tail (chat e)) (clock e) (kept e));
     Date_now e := clock e |}.

(** A [200 OK] response carrying [v]. *)
Definition ok200 {T} (v : T) : FetchResult T :=
  Resolved (mkResponse true 200 "OK" (Returned "") (Returned v)).

(** A [500] response; its body is not JSON. *)
Definition error500 {T} : FetchResult T :=
  Resolved (mkResponse false 500 "Internal Server Error" (Returned "boom")
              (Thrown (OtherError "Unexpected token"))).
End Scripted.

(** Concrete data for the examples. *)
Module Sample.
Definition alice : User.t := User.mk "u1" "alice@example.com" "Alice" "t0".
Definition abc : ChatSession.t := ChatSession.mk "abc" "u1" "First" "t1".
Definition xyz : ChatSession.t := ChatSession.mk "xyz" "u1" "Second" "t2".
Definition unnamed : ChatSession.t := ChatSession.mk "" "u1" "Third" "t0".
Definition fresh : ChatSession.t :=
  ChatSession.mk "new" "u1" "New Conversation" "t3".

Definition signedIn : option AuthSession.t :=
  Some (AuthSession.mk (AuthUser.mk (Some "alice@example.com") (Some "Alice"))).

Definition hello : BackendMessage.t :=
  BackendMessage.mk "m1" "abc" RoleUser "hello" "t4".
Definition shown : Message.t := Message.mk "m1" TypeUser "hello" None.

Definition spectra : ChatResponse.t :=
  ChatResponse.mk "What is Spectra?"
    [Source.mk (Some "Spectra") (Some "https://example.com/a") None;
     Source.mk (Some "Docs") None None]
    "Spectra is...".
Definition stored : StoreReply.t := StoreReply.mk true "abc" "user".

(** A backend with no reply left: every request is rejected. *)
Definition down : Scripted.t := Scripted.mk [] [] [] [] [] [] 1000 [].

(** A backend on which the upsert succeeds and the session list is [l]. *)
Definition listing (l : list ChatSession.t) : Scripted.t :=
  Scripted.mk [Scripted.ok200 alice]
    [Scripted.ok200 (SessionsReply.mk l "u1")] [] [] [] [] 1000 [].

Definition with_create (r : FetchResult CreateReply.t) (e : Scripted.t)
    : Scripted.t :=
  Scripted.mk (Scripted.register e) (Scripted.sessions e) [r]
    (Scripted.store e) (Scripted.messages e) (Scripted.chat e)
    (Scripted.clock e) (Scripted.kept e).

Definition with_history (r : FetchResult MessagesReply.t) (e : Scripted.t)
    : Scripted.t :=
  Scripted.mk (Scripted.register e) (Scripted.sessions e) (Scripted.create e)
    (Scripted.store e) [r] (Scripted.chat e) (Scripted.clock e)
    (Scripted.kept e).

(** A storage with room for everything, and one that takes nothing more. *)
Definition roomy : gmap string string -> option exn := fun _ => None.
Definition full : gmap string string -> option exn :=
  fun _ => Some (OtherError "The quota has been exceeded.").

(** The world of a signed-in tab with view [s], stored pointer [p] and
    backend [e]. *)
Definition world (s : ChatState) (p : option string) (e : Scripted.t)
    : World Scripted.t :=
  mkWorld s (match p with Some v => {[ SESSION_KEY := v ]} | None => ∅ end)
    e [] [] roomy.

(** The same tab in a browser whose storage is full. *)
Definition crowded (s : ChatState) (p : option string) (e : Scripted.t)
    : World Scripted.t :=
  mkWorld s (match p with Some v => {[ SESSION_KEY := v ]} | None => ∅ end)
    e [] [] full.

Definition mounted : ChatState := with_session signedIn initialChatState.

(** The view once [abc] is active and [q] has been typed. *)
Definition typing (q : string) : ChatState :=
  with_input q (with_chatSession (Some abc) (with_initLoading false mounted)).

(** A backend with the replies [stores] to the storing of messages and
    [chats] to the synthesis. *)
Definition answering (stores : list (FetchResult StoreReply.t))
    (chats : list (FetchResult ChatResponse.t)) (kept : list StoredMessage)
    : Scripted.t :=
  Scripted.mk [] [] [] stores [] chats 1000 kept.
End Sample.

(** ** Vocabulary of the statements *)

Section Vocabulary.
Context {E : Type} `{!Backend E}.

(** Steps 1 and 2 of [initializeUserAndChat] succeed from [w]: the tab is
    signed in as [email], the upsert (sent with [name]) returns a user and
    the listing returns [S], leaving the backend in [e]. *)
Definition Listed (w : World E) (email name : string)
    (S : list ChatSession.t) (e : E) : Prop :=
  ∃ user usr e1 reply,
    principal (session (ui w)) = Some (user, email) ∧
    name = displayName user email ∧
    answer (post_users_register email name) (env w) = (Returned usr, e1) ∧
    answer (get_chat_sessions email) e1 = (Returned reply, e) ∧
    SessionsReply.sessions reply = S.

(** The three requests whose failure aborts initialization from [w]: the
    error thrown, the requests issued up to and including the failing
    one, and the state the backend is left in. *)
Inductive InitFailure (w : World E) (email name : string)
    : exn → list Call → E → Prop :=
  | UpsertFails user err e1 :
      principal (session (ui w)) = Some (user, email) →
      name = displayName user email →
      answer (post_users_register email name) (env w) = (Thrown err, e1) →
      InitFailure w email name err [CallRegisterUser email name] e1
  | ListingFails user usr e1 err e2 :
      principal (session (ui w)) = Some (user, email) →
      name = displayName user email →
      answer (post_users_register email name) (env w) = (Returned usr, e1) →
      answer (get_chat_sessions email) e1 = (Thrown err, e2) →
      InitFailure w email name err
        [CallRegisterUser email name; CallGetUserSessions email] e2
  | CreationFails e err e' :
      Listed w email name [] e →
      answer (post_chat_create email "New Conversation") e = (Thrown err, e') →
      InitFailure w email name err
        [CallRegisterUser email name; CallGetUserSessions email;
         CallCreateChatSession email "New Conversation"] e'.

(** [s] is the first, most recent, session of the list returned to [w]. *)
Definition MostRecent (w : World E) (s : ChatSession.t) : Prop :=
  ∃ email name S e, Listed w email name (s :: S) e.

(** The list returned to [w] is empty and [s] is the session whose
    creation then succeeds. *)
Definition Created (w : World E) (s : ChatSession.t) : Prop :=
  ∃ email name e reply e',
    Listed w email name [] e ∧
    answer (post_chat_create email "New Conversation") e = (Returned reply, e') ∧
    CreateReply.session reply = s.

(** The pointer stored in [w] names no session of the list returned. *)
Definition Stale (w : World E) : Prop :=
  ∃ email name S e p,
    Listed w email name S e ∧ pointer w = Some p ∧
    ∀ s, s ∈ S → ChatSession.id s ≠ p.

(** What [saveCurrentSession] throws, if anything, when the identifier of
    [s] is written as the pointer of [w]: [None] when the write goes
    through. *)
Definition refusal (w : World E) (s : ChatSession.t) : option exn :=
  quota w (<[SESSION_KEY := ChatSession.id s]> (localStorage w)).

(** [handleSubmit] passes its guards in [w]: the input [q] is not blank,
    the tab is signed in and [cs] is the active chat session. *)
Definition Sendable (w : World E) (q : string) (cs : ChatSession.t) : Prop :=
  input (ui w) = q ∧
  truthy (trim q) = true ∧
  is_Some (principal (session (ui w))) ∧
  chatSession (ui w) = Some cs.

(** The message [handleSubmit] adds to the view for the input [q]. *)
Definition userMessageOf (w : World E) (q : string) : Message.t :=
  {| Message.id := pretty (Date_now (env w)); Message.type := TypeUser;
     Message.content := q; Message.sources := None |}.

(** The message [handleSubmit] adds to the view for the answer [data],
    the backend being left in [e]. *)
Definition aiMessageOf (e : E) (data : ChatResponse.t) : Message.t :=
  {| Message.id := pretty (Date_now e + 1)%N; Message.type := TypeAi;
     Message.content :=
       js_or (ChatResponse.final_answer data) "No response generated";
     Message.sources := Some (ChatResponse.sources data) |}.



End Vocabulary.

(** ** The claims that do not hold as they are worded *)

(** C1 as worded: whenever the stored pointer names no session of the list
    returned, reconciliation ends with a session selected and its
    identifier stored. *)
Definition absent_pointer_claim : Prop :=
  ∀ (E : Type) (B : Backend E) (w : World E) (email name : string)
    (S : list ChatSession.t) (e : E),
    Listed w email name S e →
    (∀ s, s ∈ S → pointer w ≠ Some (ChatSession.id s)) →
    let w' := exec initializeUserAndChat w in
    ∃ s, chatSession (ui w') = Some s ∧ pointer w' = Some (ChatSession.id s).

(** C2 as worded: whenever the stored pointer matches an entry of the list
    returned, the session it identifies is selected. *)
Definition matching_pointer_claim : Prop :=
  ∀ (E : Type) (B : Backend E) (w : World E) (email name p : string)
    (S : list ChatSession.t) (e : E) (s : ChatSession.t),
    Listed w email name S e →
    pointer w = Some p →
    s ∈ S → ChatSession.id s = p →
    let w' := exec initializeUserAndChat w in
    ∃ s', chatSession (ui w') = Some s' ∧ ChatSession.id s' = p.




(** ** The rest of the client

    The helpers of [lib/api.ts] for the cached user profile, and what is
    left of the [Chat] component: the handlers that talk to the identity
    provider, the name and avatar shown in the header, and the conditions
    under which parts of the view are rendered. *)

Definition with_authLoading (v : bool) (s : ChatState) : ChatState :=
  {| messages := messages s; input := input s; loading := loading s;
     error := error s; session := session s; authLoading := v;
     authError := authError s; currentUser := currentUser s;
     chatSession := chatSession s; initLoading := initLoading s;
     profileOpen := profileOpen s |}.

Definition with_env {E} (e : E) (w : World E) : World E :=
  {| ui := ui w; localStorage := localStorage w; env := e;
     calls := calls w; storage_log := storage_log w; quota := quota w |}.

(** A computation that has already returned or thrown. *)
Definition settled {E A} (r : Outcome A) : M E A := fun w => (r, w).

(** [JSON.stringify] and [JSON.parse] at the type [User | null]: built-ins,
    taken as they are.  [JSON_parse] throws on a text that is not JSON and
    returns [None] on the text of [null]. *)
Class Json : Type :=
  { JSON_stringify : User.t -> string;
    JSON_parse : string -> Outcome (option User.t) }.

Section UserCache.
Context {E : Type} `{!Json}.

Definition USER_KEY : string := "current_user".

Definition saveCurrentUser (user : User.t) : M E unit :=
  setItem USER_KEY (JSON_stringify user).

Definition getCurrentUser : M E (option User.t) :=
  userData ← gets (fun w => localStorage w !! USER_KEY);
  match userData with
  | Some data => if truthy data then settled (JSON_parse data) else mret None
  | None => mret None
  end.

Definition clearCurrentUser : M E unit :=
  modify (on_storage (delete USER_KEY) (RemoveItem USER_KEY)).

End UserCache.

(** What [supabase.auth.getSession()] resolves to: [data.session] and the
    message of [error], when there is one. *)
Module AuthReply.
Record t : Type := mk
  { session : option AuthSession.t; error : option string }.
End AuthReply.

(** The identity provider behind [supabase.auth]: each call resolves, with
    the message of the error it reports if any, or rejects. *)
Class IdentityProvider (E : Type) : Type :=
  { auth_getSession : E -> Outcome AuthReply.t * E;
    auth_signInWithOAuth : option string -> E -> Outcome (option string) * E;
    auth_signOut : E -> Outcome (option string) * E }.

Section Identity.
Context {E : Type} `{!IdentityProvider E}.

(** A call to the provider as a step of a handler. *)
Definition provider {A} (op : E -> Outcome A * E) : M E A :=
  fun w => let '(r, e') := op (env w) in (r, with_env e' w).

Definition setAuthLoading (v : bool) : M E unit :=
  modify (on_ui (with_authLoading v)).

(** [loadSession] of the mounting effect; [isMounted] is the flag of the
    effect when [getSession] has answered. *)
Definition loadSession (isMounted : bool) : M E unit :=
  reply ← provider auth_getSession;
  if negb isMounted then mret tt
  else
    match AuthReply.error reply with
    | Some message => setAuthError (Some message)
    | None => setSession (AuthReply.session reply)
    end.

(** [origin] is [window.location.origin], when there is a [window]. *)
Definition handleGoogleSignIn (origin : option string) : M E unit :=
  setAuthError None;;
  setAuthLoading true;;
  try_finally
    (try_catch
       (let redirectTo := origin in
        signInError ← provider (auth_signInWithOAuth redirectTo);
        match signInError with
        | Some message => setAuthError (Some message)
        | None => mret tt
        end)
       (fun err =>
          setAuthError (Some (message_or err "Sign-in failed"))))
    (setAuthLoading false).

Definition handleSignOut : M E unit :=
  setAuthError None;;
  setAuthLoading true;;
  try_finally
    (try_catch
       (signOutError ← provider auth_signOut;
        match signOutError with
        | Some message => setAuthError (Some message)
        | None => mret tt
        end)
       (fun err =>
          setAuthError (Some (message_or err "Sign-out failed"))))
    (setAuthLoading false).

End Identity.

(** *** The header *)

(** [s.split(/\s+/)[0]]: the part of [s] before its first white space. *)
Fixpoint split_space_0 (s : string) : string :=
  match s with
  | EmptyString => EmptyString
  | String c r =>
      if is_white_space c then EmptyString else String c (split_space_0 r)
  end.

(** [s.charAt(0)] *)
Definition charAt_0 (s : string) : string :=
  match s with
  | EmptyString => EmptyString
  | String c _ => String c EmptyString
  end.

Definition sessionEmail (session : option AuthSession.t) : option string :=
  a ← session; AuthUser.email (AuthSession.user a).

Definition sessionFullName (session : option AuthSession.t) : option string :=
  a ← session; AuthUser.full_name (AuthSession.user a).

(** [metadataName] is [session?.user?.user_metadata?.name], a field of the
    provider's metadata that only the header reads. *)
Definition resolvedName (currentUser : option User.t)
    (session : option AuthSession.t) (metadataName : option string) : string :=
  trim
    (js_or_opt (User.name <$> currentUser)
       (js_or_opt (sessionFullName session)
          (js_or_opt metadataName
             (js_or_opt (split_at_0 <$> sessionEmail session) "")))).

Definition firstName (resolvedName : string) : string :=
  if truthy resolvedName then split_space_0 resolvedName else "there".

(** [toUpperCase] is the built-in of that name. *)
Definition avatarLetter (toUpperCase : string -> string) (firstName : string)
    : string :=
  if truthy firstName then toUpperCase (charAt_0 firstName) else "?".

(** [picture] and [avatarUrl] are [session?.user?.user_metadata?.picture]
    and [...avatar_url]. *)
Definition profileImage (picture avatarUrl : option string) : string :=
  js_or_opt picture (js_or_opt avatarUrl "").

(** *** What is rendered *)

(** [{error && <banner>{error}</banner>}]: the text of the banner, when it
    is rendered. *)
Definition errorBanner (s : ChatState) : option string :=
  match error s with
  | Some message => if truthy message then Some message else None
  | None => None
  end.

(** [!initLoading && messages.length === 0 && !error]: the hint of the
    empty conversation is rendered. *)
Definition emptyStateShown (s : ChatState) : bool :=
  negb (initLoading s) && (length (messages s) =? 0)%nat &&
  negb (match error s with Some message => truthy message | None => false end).

(** [message.type === "ai" && message.sources && message.sources.length > 0]:
    the source cards of [message] are rendered. *)
Definition sourcesShown (message : Message.t) : bool :=
  match Message.type message, Message.sources message with
  | TypeAi, Some sources => (0 <? length sources)%nat
  | _, _ => false
  end.

(** [disabled] of the input field and of the submit button. *)
Definition inputDisabled (s : ChatState) : bool := loading s || initLoading s.

Definition submitDisabled (s : ChatState) : bool :=
  loading s || negb (truthy (trim (input s))) || initLoading s.

(** *** The chat page without accounts

    The first [Chat] component of the repository: it has no sign-in, calls
    [fetch] itself and keeps nothing on the backend.  Its state is the
    four cells [messages], [input], [loading] and [error]. *)

Section Legacy.
Context {E : Type} `{!Backend E}.

(** [await fetch(...)] as a step of a handler: the response, or the
    rejection thrown. *)
Definition fetchResponse {T} (c : Call) (endpoint : E -> FetchResult T * E)
    : M E (Response T) :=
  fun w =>
    let '(r, e') := endpoint (env w) in
    (match r with
     | Rejected err => Thrown err
     | Resolved response => Returned response
     end, on_env e' c w).

Definition legacyHandleSubmit : M E unit :=
  input ← gets (fun w => input (ui w));
  if negb (truthy (trim input)) then mret tt
  else
    now ← gets (fun w => Date_now (env w));
    let userMessage :=
      {| Message.id := pretty now; Message.type := TypeUser;
         Message.content := input; Message.sources := None |} in
    pushMessage userMessage;;
    setInput "";;
    setLoading true;;
    setError None;;
    try_finally
      (try_catch
         (response ← fetchResponse (CallSendChatMessage input)
                       (get_chat_stream input);
          (if negb (ok response)
           then settled (Thrown (OtherError
                                   ("Backend error: " +:+ statusText response)))
           else mret tt);;
          data ← settled (json response);
          now' ← gets (fun w => Date_now (env w));
          let aiMessage :=
            {| Message.id := pretty (now' + 1)%N;
               Message.type := TypeAi;
               Message.content :=
                 js_or (ChatResponse.final_answer data) "No response generated";
               Message.sources := Some (ChatResponse.sources data) |} in
          pushMessage aiMessage)
         (fun err =>
            setError (Some (message_or err "Failed to fetch response"))))
      (setLoading false).

End Legacy.

(** *** A scripted browser

    The scripted backend together with the answer of the identity provider
    to [getSession]; signing in and out succeed. *)
Module Browser.
Record t : Type := mk
  { backend : Scripted.t; stored_session : Outcome AuthReply.t }.

Definition lift {A} (op : Scripted.t -> A * Scripted.t) (e : t) : A * t :=
  let '(r, b) := op (backend e) in (r, mk b (stored_session e)).

#[global] Instance browser_backend : Backend t :=
  {| post_users_register email name := lift (post_users_register email name);
     get_chat_sessions email := lift (get_chat_sessions email);
     post_chat_create email title := lift (post_chat_create email title);
     post_messages_store sessionId role content :=
       lift (post_messages_store sessionId role content);
     get_messages sessionId := lift (get_messages sessionId);
     get_chat_stream message := lift (get_chat_stream message);
     Date_now e := Date_now (backend e) |}.

#[global] Instance browser_provider : IdentityProvider t :=
  {| auth_getSession e := (stored_session e, e);
     auth_signInWithOAuth _ e := (Returned None, e);
     auth_signOut e := (Returned None, e) |}.
End Browser.

(** *** Vocabulary of the further statements *)

(** The stored pointer names the active session, and there is no pointer
    when there is no active session. *)
Definition PointerAgrees {E} (w : World E) : Prop :=
  match chatSession (ui w) with
  | Some s => pointer w = Some (ChatSession.id s)
  | None => pointer w = None
  end.

(** The sequences of requests a run of the reconciler can issue. *)
Inductive ReconcileRequests : list Call -> Prop :=
  | NoRequest : ReconcileRequests []
  | UpsertOnly email name :
      ReconcileRequests [CallRegisterUser email name]
  | UpsertListing email name :
      ReconcileRequests [CallRegisterUser email name; CallGetUserSessions email]
  | UpsertListingCreation email name :
      ReconcileRequests
        [CallRegisterUser email name; CallGetUserSessions email;
         CallCreateChatSession email "New Conversation"]
  | UpsertListingHistory email name sessionId :
      ReconcileRequests
        [CallRegisterUser email name; CallGetUserSessions email;
         CallFetchMessages sessionId].

(** The cells of the view that belong to the sign-in controls and to the
    form, which the reconciler has no business with. *)
Definition sameControls (s s' : ChatState) : Prop :=
  input s' = input s ∧ loading s' = loading s ∧ session s' = session s ∧
  authLoading s' = authLoading s ∧ authError s' = authError s ∧
  profileOpen s' = profileOpen s.

(** The cells of the view that belong to the conversation. *)
Definition sameConversation (s s' : ChatState) : Prop :=
  messages s' = messages s ∧ error s' = error s ∧
  currentUser s' = currentUser s ∧ chatSession s' = chatSession s ∧
  initLoading s' = initLoading s ∧ input s' = input s ∧ loading s' = loading s.

(** What a call that reports its error as a value, or rejects, leaves in
    [authError]. *)
Definition reported (r : Outcome (option string)) (fallback : string)
    : option string :=
  match r with
  | Returned signal => signal
  | Thrown err => Some (message_or err fallback)
  end.

(** Every character of [s] is white space. *)
Definition blank (s : string) : Prop :=
  ∀ c, c ∈ list_ascii_of_string s → is_white_space c = true.

(** *** The claims about the error shown, as they are worded *)



(** ** Running handlers symbolically *)

Ltac unfold_handlers :=
  unfold exec, outcome, pointer,
    initializeUserAndChat, onAuthStateChange, handleSubmit,
    registerUser, getUserSessions, createChatSession, storeMessage,
    fetchMessages, sendChatMessage, request,
    saveCurrentSession, setItem, getCurrentSession, clearCurrentSession,
    setMessages, setInput, setLoading, setError, setSession, setAuthError,
    setCurrentUser, setChatSession, setInitLoading, setProfileOpen, pushMessage,
    try_catch, try_finally, modify, gets,
    mbind, M_bind, mret, M_ret, bind, ret in *.

(** Unfold the handlers and compute as far as the state allows. *)
Ltac run := unfold_handlers; cbn.

(** Feed the answer [H] of the backend to the running handler. *)
Ltac reply H := rewrite H; cbn.

(** ** Properties of the reconciler *)

Section Reconciler.
Context {E : Type} `{!Backend E}.

Lemma find_id_elem (p : string) (S : list ChatSession.t) (s : ChatSession.t) :
  find (fun s => String.eqb (ChatSession.id s) p) S = Some s →
  s ∈ S ∧ ChatSession.id s = p.
Proof.
  intros Hf. apply find_some in Hf as [Hin Heq].
  split; [by apply list_elem_of_In | by apply String.eqb_eq].
Qed.

Lemma find_id_is_Some (p : string) (S : list ChatSession.t) (s : ChatSession.t) :
  s ∈ S → ChatSession.id s = p →
  is_Some (find (fun s => String.eqb (ChatSession.id s) p) S).
Proof.
  intros Hin Hid.
  destruct (find _ S) as [s'|] eqn:Hf; [by eexists|].
  apply list_elem_of_In in Hin.
  pose proof (find_none _ _ Hf _ Hin) as Hne. cbn in Hne.
  apply String.eqb_neq in Hne. done.
Qed.

Lemma find_id_None (p : string) (S : list ChatSession.t) :
  (∀ s, s ∈ S → ChatSession.id s ≠ p) →
  find (fun s => String.eqb (ChatSession.id s) p) S = None.
Proof.
  intros Hout.
  destruct (find _ S) as [s'|] eqn:Hf; [|done].
  apply find_id_elem in Hf as [Hin Hid]. by destruct (Hout _ Hin).
Qed.

Lemma truthy_ne (s : string) : s ≠ "" → truthy s = true.
Proof.
  intros Hne. unfold truthy. by apply negb_true_iff, String.eqb_neq.
Qed.

(** Step 3 on a stored pointer that names a listed session: the session
    is selected with [shouldLoadMessages = true] and nothing is written. *)
Lemma determineSession_restored (email p : string) (S : list ChatSession.t)
    (s : ChatSession.t) (w : World E) :
  pointer w = Some p → p ≠ "" →
  find (fun s => String.eqb (ChatSession.id s) p) S = Some s →
  determineSession email S w = (Returned (s, true), w).
Proof.
  intros Hp Hne Hf. unfold determineSession. run.
  rewrite Hp, (truthy_ne _ Hne).
  destruct S as [|s0 S']; [done|]. cbn in *. by rewrite Hf.
Qed.

(** Step 3 on a stored pointer that names no listed session, the list
    being non-empty: the pointer is removed, the most recent session is
    selected and its identifier stored, unless the write is refused. *)
Lemma determineSession_stale (email p : string) (s0 : ChatSession.t)
    (S : list ChatSession.t) (w : World E) :
  pointer w = Some p → p ≠ "" →
  find (fun s => String.eqb (ChatSession.id s) p) (s0 :: S) = None →
  determineSession email (s0 :: S) w =
    match refusal w s0 with
    | None =>
        (Returned (s0, true),
         on_storage (insert SESSION_KEY (ChatSession.id s0))
           (SetItem SESSION_KEY (ChatSession.id s0))
           (on_storage (delete SESSION_KEY) (RemoveItem SESSION_KEY) w))
    | Some err =>
        (Thrown err, on_storage (delete SESSION_KEY) (RemoveItem SESSION_KEY) w)
    end.
Proof.
  intros Hp Hne Hf. unfold determineSession, refusal. run.
  rewrite Hp, (truthy_ne _ Hne). cbn in *. rewrite Hf. cbn.
  rewrite insert_delete_eq. by destruct (quota w _).
Qed.

(** Step 3 without a usable stored pointer (none, or the empty string),
    the list being non-empty: the most recent session is selected and its
    identifier stored, unless the write is refused. *)
Lemma determineSession_recent (email : string) (s0 : ChatSession.t)
    (S : list ChatSession.t) (w : World E) :
  pointer w = None ∨ pointer w = Some "" →
  determineSession email (s0 :: S) w =
    match refusal w s0 with
    | None =>
        (Returned (s0, true),
         on_storage (insert SESSION_KEY (ChatSession.id s0))
           (SetItem SESSION_KEY (ChatSession.id s0)) w)
    | Some err => (Thrown err, w)
    end.
Proof.
  intros Hp. unfold determineSession, refusal. run.
  destruct Hp as [-> | ->]; cbn; by destruct (quota w _).
Qed.

(** Step 3 on the empty list: whatever the stored pointer, a session is
    requested; its identifier is stored when the request succeeds, unless
    the write is refused. *)
Lemma determineSession_empty (email : string) (w : World E) :
  determineSession email [] w =
    let requested e :=
      on_env e (CallCreateChatSession email "New Conversation") w in
    match answer (post_chat_create email "New Conversation") (env w) with
    | (Returned reply, e) =>
        match refusal w (CreateReply.session reply) with
        | None =>
            (Returned (CreateReply.session reply, false),
             on_storage
               (insert SESSION_KEY (ChatSession.id (CreateReply.session reply)))
               (SetItem SESSION_KEY (ChatSession.id (CreateReply.session reply)))
               (requested e))
        | Some err => (Thrown err, requested e)
        end
    | (Thrown err, e) => (Thrown err, requested e)
    end.
Proof.
  unfold determineSession, refusal. run.
  destruct (localStorage w !! SESSION_KEY) as [p|]; cbn;
    [rewrite andb_false_r|];
    destruct (answer _ _) as [[reply|err] e]; cbn; try done;
    by destruct (quota w _).
Qed.

(** A pointer that names no session of [S] either is unusable or is
    looked up in vain. *)
Lemma pointer_absent_cases (S : list ChatSession.t) (w : World E) :
  (∀ s, s ∈ S → pointer w ≠ Some (ChatSession.id s)) →
  pointer w = None ∨ pointer w = Some "" ∨
  ∃ p, pointer w = Some p ∧ p ≠ "" ∧
       find (fun s => String.eqb (ChatSession.id s) p) S = None.
Proof.
  intros Hout. destruct (pointer w) as [p|] eqn:Hp; [|by left].
  right. destruct (decide (p = "")) as [-> | Hne]; [by left|].
  right. exists p. split; [done|]. split; [done|].
  apply find_id_None. intros s Hin Hid. apply (Hout s Hin). by rewrite Hid.
Qed.

(** When the pointer names no session of the non-empty list, the most
    recent session is selected, and stored; when the write is refused,
    step 3 throws what the write throws. *)
Lemma determineSession_absent (email : string) (s0 : ChatSession.t)
    (S : list ChatSession.t) (w : World E) :
  (∀ s, s ∈ s0 :: S → pointer w ≠ Some (ChatSession.id s)) →
  ∃ w1,
    match refusal w s0 with
    | None =>
        determineSession email (s0 :: S) w = (Returned (s0, true), w1) ∧
        pointer w1 = Some (ChatSession.id s0)
    | Some err => determineSession email (s0 :: S) w = (Thrown err, w1)
    end ∧
    ui w1 = ui w ∧ env w1 = env w ∧ calls w1 = calls w.
Proof.
  intros Hout.
  assert (∀ w0 : World E,
            pointer (on_storage (insert SESSION_KEY (ChatSession.id s0))
                       (SetItem SESSION_KEY (ChatSession.id s0)) w0)
            = Some (ChatSession.id s0)) as Hset
    by (intros w0; unfold pointer; cbn; by rewrite lookup_insert_eq).
  destruct (pointer_absent_cases _ _ Hout) as [Hp | [Hp | (p & Hp & Hne & Hf)]].
  - rewrite determineSession_recent by (by left).
    destruct (refusal w s0); eexists;
      (split; [first [reflexivity | split; [reflexivity | apply Hset]] | done]).
  - rewrite determineSession_recent by (by right).
    destruct (refusal w s0); eexists;
      (split; [first [reflexivity | split; [reflexivity | apply Hset]] | done]).
  - rewrite (determineSession_stale email p) by done.
    destruct (refusal w s0); eexists;
      (split; [first [reflexivity | split; [reflexivity | apply Hset]] | done]).
Qed.

(** C1, as amended. When the stored pointer names no session of the list
    [S] the backend returned (no pointer at all and the empty list
    included), reconciliation never selects a session that does not exist
    and the pointer it leaves is never the stale one.  With [S] non-empty
    the most recent session of [S] is selected and its identifier is the
    stored pointer, provided the browser accepts the write; with [S] empty
    a session is requested and, when the request succeeds and the browser
    accepts the write, the new session is selected and its identifier is
    the stored pointer.  When the request fails, or when [setItem] throws
    because the storage takes no more, no session is selected and no
    pointer is stored.  The only messages requested are those of the
    session selected from [S]. *)
Theorem reconcile_replaces_absent_pointer (w : World E) (email name : string)
    (S : list ChatSession.t) (e : E) :
  Listed w email name S e →
  (∀ s, s ∈ S → pointer w ≠ Some (ChatSession.id s)) →
  let w' := exec initializeUserAndChat w in
  let upsert_listing := [CallRegisterUser email name; CallGetUserSessions email] in
  let creation := CallCreateChatSession email "New Conversation" in
  match S with
  | s0 :: _ =>
      match refusal w s0 with
      | None =>
          chatSession (ui w') = Some s0 ∧
          pointer w' = Some (ChatSession.id s0) ∧
          calls w' = calls w ++ upsert_listing
                       ++ [CallFetchMessages (ChatSession.id s0)]
      | Some _ =>
          chatSession (ui w') = None ∧
          pointer w' = None ∧
          calls w' = calls w ++ upsert_listing
      end
  | [] =>
      match answer (post_chat_create email "New Conversation") e with
      | (Returned reply, _) =>
          match refusal w (CreateReply.session reply) with
          | None =>
              chatSession (ui w') = Some (CreateReply.session reply) ∧
              pointer w' = Some (ChatSession.id (CreateReply.session reply)) ∧
              calls w' = calls w ++ upsert_listing ++ [creation]
          | Some _ =>
              chatSession (ui w') = None ∧
              pointer w' = None ∧
              calls w' = calls w ++ upsert_listing ++ [creation]
          end
      | (Thrown _, _) =>
          chatSession (ui w') = None ∧
          pointer w' = None ∧
          calls w' = calls w ++ upsert_listing ++ [creation]
      end
  end.
Proof.
  intros (user & usr & e1 & reply & Hprin & -> & Hreg & Hlist & <-) Hout.
  run. reply Hprin. reply Hreg. reply Hlist.
  destruct (SessionsReply.sessions reply) as [|s0 S].
  - rewrite determineSession_empty. cbn. unfold refusal. cbn.
    destruct (answer (post_chat_create _ _) e) as [[created|err] e']; cbn;
      [destruct (quota w _); cbn|];
      by rewrite ?lookup_insert_eq, ?lookup_delete_eq, <- !app_assoc.
  - match goal with
    | |- context [determineSession email (s0 :: S) ?w2] =>
        destruct (determineSession_absent email s0 S w2 Hout)
          as (w1 & Hsel & Hui & He & Hc)
    end.
    unfold refusal in *. cbn in *.
    destruct (quota w _) as [refused|].
    + rewrite Hsel. cbn. by rewrite lookup_delete_eq, Hc, <- !app_assoc.
    + destruct Hsel as [-> Hp]. cbn. unfold pointer in Hp. rewrite He.
      destruct (answer (get_messages _) _) as [[history|err] e']; cbn;
        by rewrite Hc, <- !app_assoc.
Qed.

(** C2, as amended. When the stored pointer is a non-empty string that
    matches an entry of the list the backend returned, reconciliation
    selects the (first) session with that identifier, with
    [shouldLoadMessages = true]: it leaves the pointer as it is, requests
    that session's messages, and shows them when the request succeeds. *)
Theorem reconcile_restores_matching_pointer (w : World E)
    (email name p : string) (S : list ChatSession.t) (e : E)
    (s : ChatSession.t) :
  Listed w email name S e →
  pointer w = Some p → p ≠ "" →
  s ∈ S → ChatSession.id s = p →
  ∃ s', s' ∈ S ∧ ChatSession.id s' = p ∧
    (∀ w0 : World E, pointer w0 = Some p →
       determineSession email S w0 = (Returned (s', true), w0)) ∧
    let w' := exec initializeUserAndChat w in
    chatSession (ui w') = Some s' ∧
    pointer w' = Some p ∧
    calls w' = calls w ++ [CallRegisterUser email name;
                           CallGetUserSessions email;
                           CallFetchMessages p] ∧
    ∀ history e', answer (get_messages p) e = (Returned history, e') →
      messages (ui w') = map toUiMessage (MessagesReply.messages history).
Proof.
  intros (user & usr & e1 & reply & Hprin & -> & Hreg & Hlist & <-)
    Hp Hne Hin Hid.
  destruct (find_id_is_Some p _ s Hin Hid) as [s' Hf].
  destruct (find_id_elem p _ _ Hf) as [Hin' Hid'].
  exists s'. split; [done|]. split; [done|].
  split. { intros w0 Hp0. by apply (determineSession_restored email p). }
  run. reply Hprin. reply Hreg. reply Hlist.
  rewrite (determineSession_restored email p _ s'); [|done..]. cbn.
  rewrite Hid'.
  destruct (answer (get_messages p) e) as [[history|err] e'] eqn:Hfetch; cbn;
    rewrite <- !app_assoc; (repeat split; [done..|]);
    by intros history' e'' [= <- <-].
Qed.


(** When step 3 asks for the messages to be loaded, its choice depends
    on the local storage and its quota only: it selects the same session
    from any world with that storage, touches neither view nor backend,
    and leaves the identifier of the selected session as the stored
    pointer. *)
Lemma determineSession_hydrate (email : string) (S : list ChatSession.t)
    (s : ChatSession.t) (w w0 : World E) :
  outcome (determineSession email S) w = Returned (s, true) →
  localStorage w0 = localStorage w →
  quota w0 = quota w →
  ∃ w1, determineSession email S w0 = (Returned (s, true), w1) ∧
        ui w1 = ui w0 ∧ env w1 = env w0 ∧ calls w1 = calls w0 ∧
        pointer w1 = Some (ChatSession.id s).
Proof.
  unfold outcome. intros Hsel Hls Hq.
  assert (pointer w0 = pointer w) as Hp0 by (unfold pointer; by rewrite Hls).
  assert (∀ s', refusal w0 s' = refusal w s') as Hr0
    by (intros s'; unfold refusal; by rewrite Hls, Hq).
  assert (∀ (s' : ChatSession.t) (w2 : World E),
            pointer (on_storage (insert SESSION_KEY (ChatSession.id s'))
                       (SetItem SESSION_KEY (ChatSession.id s')) w2)
            = Some (ChatSession.id s')) as Hset
    by (intros s' w2; unfold pointer; cbn; by rewrite lookup_insert_eq).
  destruct S as [|s0 S].
  { rewrite determineSession_empty in Hsel. cbn in Hsel.
    destruct (answer _ _) as [[reply|err] e]; [|done].
    by destruct (refusal w _). }
  destruct (pointer w) as [p|] eqn:Hp.
  - destruct (decide (p = "")) as [-> | Hne].
    + rewrite determineSession_recent in Hsel by (by right).
      rewrite determineSession_recent, Hr0 by (by right).
      destruct (refusal w s0); [done|].
      injection Hsel as <-. eexists. split; [reflexivity|]. by rewrite Hset.
    + destruct (find (fun s => String.eqb (ChatSession.id s) p) (s0 :: S))
        as [s'|] eqn:Hf.
      * rewrite (determineSession_restored email p _ s') in Hsel by done.
        injection Hsel as <-. exists w0.
        split; [by apply (determineSession_restored email p)|].
        destruct (find_id_elem p _ _ Hf) as [_ ->]. done.
      * rewrite (determineSession_stale email p) in Hsel by done.
        rewrite (determineSession_stale email p), Hr0 by done.
        destruct (refusal w s0); [done|].
        injection Hsel as <-. eexists. split; [reflexivity|]. by rewrite Hset.
  - rewrite determineSession_recent in Hsel by (by left).
    rewrite determineSession_recent, Hr0 by (by left).
    destruct (refusal w s0); [done|].
    injection Hsel as <-. eexists. split; [reflexivity|]. by rewrite Hset.
Qed.




(** C9. The local-storage operations of a run of the reconciler are one
    of: none at all; a removal of the pointer, on a failed initialization;
    a write of the identifier of the session that ends up active, that
    session being the most recent of the list or the one just created;
    the removal of a stale pointer followed by such a write for the most
    recent session; and, when the browser refuses such a write, the
    removal of the pointer instead of the write, no session being active
    then.  A write is thus never followed by a removal and never stores a
    session that has not been selected.  Besides, the listener removes the
    pointer when it reports that there is no session, and does nothing to
    the storage otherwise. *)
Theorem pointer_written_only_on_selection (w : World E) :
  (let w' := exec initializeUserAndChat w in
   ∃ ops, storage_log w' = storage_log w ++ ops ∧
     ((ops = [] ∧ localStorage w' = localStorage w) ∨
      (ops = [RemoveItem SESSION_KEY] ∧ pointer w' = None ∧
       chatSession (ui w') = None ∧
       ∃ email name err issued e, InitFailure w email name err issued e) ∨
      (∃ s, chatSession (ui w') = Some s ∧
            pointer w' = Some (ChatSession.id s) ∧
            ((ops = [SetItem SESSION_KEY (ChatSession.id s)] ∧
              (MostRecent w s ∨ Created w s)) ∨
             (ops = [RemoveItem SESSION_KEY;
                     SetItem SESSION_KEY (ChatSession.id s)] ∧
              MostRecent w s ∧ Stale w))) ∨
      (∃ s err, refusal w s = Some err ∧
            chatSession (ui w') = None ∧
            pointer w' = None ∧
            ((ops = [RemoveItem SESSION_KEY] ∧
              (MostRecent w s ∨ Created w s)) ∨
             (ops = [RemoveItem SESSION_KEY; RemoveItem SESSION_KEY] ∧
              MostRecent w s ∧ Stale w))))) ∧
  (∀ isMounted newSession,
     let w' := exec (onAuthStateChange isMounted newSession) w in
     storage_log w' = storage_log w ++
       match newSession with
       | None => if isMounted then [RemoveItem SESSION_KEY] else []
       | Some _ => []
       end).
Proof.
  split; [|intros [|] [a|]; run; by rewrite ?app_nil_r].
  destruct (principal (session (ui w))) as [[user email]|] eqn:Hprin;
    [|exists []; split; [|left]; run; by rewrite Hprin, ?app_nil_r].
  destruct (answer (post_users_register email (displayName user email)) (env w))
    as [[usr|err] e1] eqn:Hreg.
  2:{ exists [RemoveItem SESSION_KEY]. run. reply Hprin. reply Hreg.
      split; [done|]. right. left. rewrite lookup_delete_eq.
      repeat split. do 5 eexists. by eapply UpsertFails. }
  destruct (answer (get_chat_sessions email) e1) as [[reply|err] e2] eqn:Hlist.
  2:{ exists [RemoveItem SESSION_KEY]. run. reply Hprin. reply Hreg. reply Hlist.
      split; [done|]. right. left. rewrite lookup_delete_eq.
      repeat split. do 5 eexists. by eapply ListingFails. }
  destruct (SessionsReply.sessions reply) as [|s0 S] eqn:HS.
  { assert (Listed w email (displayName user email) [] e2) as HL
      by (by exists user, usr, e1, reply).
    destruct (answer (post_chat_create email "New Conversation") e2)
      as [[created|err] e3] eqn:Hcreate.
    - assert (Created w (CreateReply.session created)) as HC
        by (by exists email, (displayName user email), e2, created, e3).
      destruct (refusal w (CreateReply.session created)) as [refused|] eqn:Hq.
      + exists [RemoveItem SESSION_KEY].
        run. reply Hprin. reply Hreg. reply Hlist. rewrite HS.
        rewrite determineSession_empty. cbn. reply Hcreate.
        unfold refusal in *. cbn. rewrite Hq. cbn.
        split; [done|]. do 3 right. eexists _, refused.
        rewrite lookup_delete_eq. repeat split; [done|]. left. split; [done|].
        by right.
      + exists [SetItem SESSION_KEY (ChatSession.id (CreateReply.session created))].
        run. reply Hprin. reply Hreg. reply Hlist. rewrite HS.
        rewrite determineSession_empty. cbn. reply Hcreate.
        unfold refusal in *. cbn. rewrite Hq. cbn.
        split; [done|]. right. right. left. eexists. rewrite lookup_insert_eq.
        repeat split. left. split; [done|]. by right.
    - exists [RemoveItem SESSION_KEY].
      run. reply Hprin. reply Hreg. reply Hlist. rewrite HS.
      rewrite determineSession_empty. cbn. reply Hcreate.
      split; [done|]. right. left. rewrite lookup_delete_eq.
      repeat split. do 5 eexists. by eapply CreationFails. }
  assert (Listed w email (displayName user email) (s0 :: S) e2) as HL
    by (by exists user, usr, e1, reply).
  assert (MostRecent w s0) as HM
    by (by exists email, (displayName user email), S, e2).
  assert ((pointer w = None ∨ pointer w = Some "") ∨
          ∃ p, pointer w = Some p ∧ p ≠ "") as [Hp | (p & Hp & Hne)].
  { destruct (pointer w) as [p|]; [|by left; left].
    destruct (decide (p = "")) as [-> | Hne]; [by left; right|].
    right. by exists p. }
  { destruct (refusal w s0) as [refused|] eqn:Hq.
    - exists [RemoveItem SESSION_KEY].
      run. reply Hprin. reply Hreg. reply Hlist. rewrite HS.
      rewrite determineSession_recent by exact Hp.
      unfold refusal in *. cbn. rewrite Hq. cbn.
      split; [done|]. do 3 right. exists s0, refused.
      rewrite lookup_delete_eq. repeat split; [done|].
      left. split; [done|]. by left.
    - exists [SetItem SESSION_KEY (ChatSession.id s0)].
      run. reply Hprin. reply Hreg. reply Hlist. rewrite HS.
      rewrite determineSession_recent by exact Hp.
      unfold refusal in *. cbn. rewrite Hq. cbn.
      destruct (answer (get_messages _) e2) as [[history|err] e3]; cbn;
        (split; [done|]); right; right; left; exists s0;
        rewrite lookup_insert_eq; repeat split; left; by split; [|left]. }
  destruct (find (fun s => String.eqb (ChatSession.id s) p) (s0 :: S))
    as [s'|] eqn:Hf.
  - exists []. run. reply Hprin. reply Hreg. reply Hlist. rewrite HS.
    rewrite (determineSession_restored email p _ s') by done. cbn.
    destruct (answer (get_messages _) e2) as [[history|err] e3]; cbn;
      rewrite app_nil_r; (split; [done|]); by left.
  - assert (Stale w) as HStale.
    { exists email, (displayName user email), (s0 :: S), e2, p.
      split; [done|]. split; [done|]. intros s Hin Hid.
      destruct (find_id_is_Some p _ s Hin Hid) as [s' Hs'].
      by rewrite Hf in Hs'. }
    destruct (refusal w s0) as [refused|] eqn:Hq.
    + exists [RemoveItem SESSION_KEY; RemoveItem SESSION_KEY].
      run. reply Hprin. reply Hreg. reply Hlist. rewrite HS.
      rewrite (determineSession_stale email p) by done.
      unfold refusal in *. cbn. rewrite Hq. cbn.
      rewrite <- !app_assoc. split; [done|]. do 3 right. exists s0, refused.
      rewrite lookup_delete_eq. repeat split; [done|]. right. by split.
    + exists [RemoveItem SESSION_KEY; SetItem SESSION_KEY (ChatSession.id s0)].
      run. reply Hprin. reply Hreg. reply Hlist. rewrite HS.
      rewrite (determineSession_stale email p) by done.
      unfold refusal in *. cbn. rewrite Hq. cbn.
      destruct (answer (get_messages _) e2) as [[history|err] e3]; cbn;
        rewrite <- !app_assoc; (split; [done|]); right; right; left; exists s0;
        rewrite lookup_insert_eq; repeat split; right; by split.
Qed.

End Reconciler.

(** ** Properties of sending a message *)

Section Sending.
Context {E : Type} `{!Backend E}.
Context (stored : E -> list StoredMessage) `{!MessageStore stored}.





End Sending.

(** ** Concrete runs *)

(** The scripted backend keeps its messages as a message store does. *)
#[global] Instance scripted_store : MessageStore Scripted.kept.
Proof.
  split.
  - intros sessionId role content e ack e'. unfold answer. cbn.
    destruct (Scripted.next (Scripted.store e)) as [err|[[] st stt tx [v|err]]];
      cbn; try destruct tx; intros [= <- <-] || intros [= <-]; done.
  - intros sessionId role content e err e'. unfold answer. cbn.
    destruct (Scripted.next (Scripted.store e)) as [err'|[[] st stt tx [v|err']]];
      cbn; try destruct tx; intros [= <- <-] || intros [= <-]; done.
  - intros message e. unfold answer. cbn.
    by destruct (Scripted.next (Scripted.chat e)).
Qed.

(** Solve [Listed] on a scripted backend by running the two requests. *)
Ltac listed := do 4 eexists; repeat split; reflexivity.

(** The scenario of the stale pointer: the stored pointer is ["stale"] and
    the list is [[xyz]]; [xyz] is selected and stored.  In a browser whose
    storage is full the stale pointer is removed all the same, and nothing
    is selected. *)
Lemma reconcile_replaces_absent_pointer_witness :
  let w := Sample.world Sample.mounted (Some "stale") (Sample.listing [Sample.xyz]) in
  let c := Sample.crowded Sample.mounted (Some "stale") (Sample.listing [Sample.xyz]) in
  Listed w "alice@example.com" "Alice" [Sample.xyz] Sample.down ∧
  (∀ s, s ∈ [Sample.xyz] → pointer w ≠ Some (ChatSession.id s)) ∧
  (chatSession (ui (exec initializeUserAndChat w)) = Some Sample.xyz ∧
   pointer (exec initializeUserAndChat w) = Some "xyz" ∧
   calls (exec initializeUserAndChat w) =
     calls w ++ [CallRegisterUser "alice@example.com" "Alice";
                 CallGetUserSessions "alice@example.com";
                 CallFetchMessages "xyz"]) ∧
  Listed c "alice@example.com" "Alice" [Sample.xyz] Sample.down ∧
  (∀ s, s ∈ [Sample.xyz] → pointer c ≠ Some (ChatSession.id s)) ∧
  (chatSession (ui (exec initializeUserAndChat c)) = None ∧
   pointer (exec initializeUserAndChat c) = None ∧
   calls (exec initializeUserAndChat c) =
     calls c ++ [CallRegisterUser "alice@example.com" "Alice";
                 CallGetUserSessions "alice@example.com"]).
Proof.
  intros w c.
  assert (Listed w "alice@example.com" "Alice" [Sample.xyz] Sample.down)
    as HL by listed.
  assert (∀ s, s ∈ [Sample.xyz] → pointer w ≠ Some (ChatSession.id s)) as Hout.
  { intros s Hin. apply list_elem_of_singleton in Hin. subst s.
    vm_compute. discriminate. }
  assert (Listed c "alice@example.com" "Alice" [Sample.xyz] Sample.down)
    as HLc by listed.
  split; [exact HL|]. split; [exact Hout|].
  split; [exact (reconcile_replaces_absent_pointer w _ _ _ _ HL Hout)|].
  split; [exact HLc|]. split; [exact Hout|].
  exact (reconcile_replaces_absent_pointer c _ _ _ _ HLc Hout).
Defined.

(** The scenario of the matching pointer: the stored pointer is ["abc"] and
    the list is [[abc; xyz]]; [abc] is selected and its history shown. *)
Lemma reconcile_restores_matching_pointer_witness :
  let e := Sample.with_history
             (Scripted.ok200 (MessagesReply.mk "abc" 1 [Sample.hello]))
             Sample.down in
  let w := Sample.world Sample.mounted (Some "abc")
             (Sample.with_history
                (Scripted.ok200 (MessagesReply.mk "abc" 1 [Sample.hello]))
                (Sample.listing [Sample.abc; Sample.xyz])) in
  Listed w "alice@example.com" "Alice" [Sample.abc; Sample.xyz] e ∧
  pointer w = Some "abc" ∧ "abc" ≠ "" ∧
  Sample.abc ∈ [Sample.abc; Sample.xyz] ∧ ChatSession.id Sample.abc = "abc" ∧
  ∃ s', s' ∈ [Sample.abc; Sample.xyz] ∧ ChatSession.id s' = "abc" ∧
    (∀ w0 : World Scripted.t, pointer w0 = Some "abc" →
       determineSession "alice@example.com" [Sample.abc; Sample.xyz] w0
         = (Returned (s', true), w0)) ∧
    let w' := exec initializeUserAndChat w in
    chatSession (ui w') = Some s' ∧
    pointer w' = Some "abc" ∧
    calls w' = calls w ++ [CallRegisterUser "alice@example.com" "Alice";
                           CallGetUserSessions "alice@example.com";
                           CallFetchMessages "abc"] ∧
    ∀ history e',
      answer (get_messages "abc") e = (Returned history, e') →
      messages (ui w') = map toUiMessage (MessagesReply.messages history).
Proof.
  intros e w.
  assert (Listed w "alice@example.com" "Alice" [Sample.abc; Sample.xyz] e)
    as HL by listed.
  assert (Sample.abc ∈ [Sample.abc; Sample.xyz]) as Hin by apply list_elem_of_here.
  repeat (split; [done|]).
  exact (reconcile_restores_matching_pointer w _ _ "abc" _ _ Sample.abc
           HL eq_refl ltac:(discriminate) Hin eq_refl).
Defined.








(** ** Counterexamples *)

(** C1 as worded fails.  No stored pointer, empty list, and the creation
    answers 500: no session is selected and no pointer is stored. *)
Lemma absent_pointer_claim_counterexample : ¬ absent_pointer_claim.
Proof.
  intros Hclaim.
  pose (w := Sample.world Sample.mounted None
               (Sample.with_create Scripted.error500 (Sample.listing []))).
  destruct (Hclaim _ _ w "alice@example.com" "Alice" []
              (Sample.with_create Scripted.error500
                 Sample.down))
    as (s & Hcs & _); [listed | by intros s Hin%elem_of_nil |].
  vm_compute in Hcs. discriminate.
Qed.

(** C2 as worded fails.  The stored pointer is the empty string and the
    second session of the list has the empty identifier: the pointer is
    taken for absent and the first session, [xyz], is selected. *)
Lemma matching_pointer_claim_counterexample : ¬ matching_pointer_claim.
Proof.
  intros Hclaim.
  pose (w := Sample.world Sample.mounted (Some "")
               (Sample.listing [Sample.xyz; Sample.unnamed])).
  destruct (Hclaim _ _ w "alice@example.com" "Alice" ""
              [Sample.xyz; Sample.unnamed]
              Sample.down Sample.unnamed)
    as (s' & Hcs & Hid); [listed | done | | done |].
  { apply list_elem_of_further, list_elem_of_here. }
  vm_compute in Hcs. injection Hcs as <-. discriminate.
Qed.






(** ** Properties of the local-storage helpers *)

(** Unfold the helpers of the cached profile and of the identity provider
    as well. *)
Ltac run_rest :=
  unfold saveCurrentUser, getCurrentUser, clearCurrentUser, settled,
    loadSession, handleGoogleSignIn, handleSignOut, provider, setAuthLoading
    in *;
  run.

Lemma keys_differ : SESSION_KEY ≠ USER_KEY.
Proof. discriminate. Qed.

Section Storage.
Context {E : Type} `{!Json}.

(** X2. The session pointer and the cached profile do not interfere:
    saving or clearing the profile leaves the pointer as it is, and saving
    or clearing the pointer leaves what [getCurrentUser] returns as it
    is. *)
Theorem pointer_and_profile_are_independent (w : World E) (user : User.t)
    (sessionId : string) :
  pointer (exec (saveCurrentUser user) w) = pointer w ∧
  pointer (exec clearCurrentUser w) = pointer w ∧
  outcome getCurrentUser (exec (saveCurrentSession sessionId) w)
    = outcome getCurrentUser w ∧
  outcome getCurrentUser (exec clearCurrentSession w)
    = outcome getCurrentUser w.
Proof.
  pose proof keys_differ as Hne.
  run_rest.
  destruct (quota w (<[USER_KEY := _]> _)), (quota w (<[SESSION_KEY := _]> _));
    cbn;
    rewrite ?lookup_insert_ne, ?lookup_delete_ne by done;
    (destruct (localStorage w !! USER_KEY) as [data|]; [|done]);
    by destruct (truthy data).
Qed.

End Storage.

(** ** Further properties of the reconciler *)

Section ReconcilerMore.
Context {E : Type} `{!Backend E}.

(** Step 3 changes nothing of the view and no other key of the storage; it
    issues a request only on the empty list; the session it returns is
    named by the pointer it leaves. *)
Lemma determineSession_frame (email : string) (S : list ChatSession.t)
    (w : World E) :
  let '(r, w1) := determineSession email S w in
  ui w1 = ui w ∧
  (∀ k, k ≠ SESSION_KEY → localStorage w1 !! k = localStorage w !! k) ∧
  (S ≠ [] → calls w1 = calls w ∧ env w1 = env w) ∧
  (S = [] →
   calls w1 = calls w ++ [CallCreateChatSession email "New Conversation"]) ∧
  match r with
  | Returned (s, hydrate) =>
      pointer w1 = Some (ChatSession.id s) ∧
      (if hydrate then s ∈ S else S = [])
  | Thrown _ => True
  end.
Proof.
  destruct S as [|s0 S].
  - rewrite determineSession_empty. cbn.
    destruct (answer _ _) as [[reply|err] e]; [destruct (refusal w _)|];
      unfold pointer; cbn; repeat split; try done.
    + intros k Hk. by rewrite lookup_insert_ne.
    + by rewrite lookup_insert_eq.
  - destruct (pointer w) as [p|] eqn:Hp.
    + destruct (decide (p = "")) as [-> | Hne].
      * rewrite determineSession_recent by (by right).
        destruct (refusal w s0);
          unfold pointer; cbn; repeat split; try done.
        -- intros k Hk. by rewrite lookup_insert_ne.
        -- by rewrite lookup_insert_eq.
        -- apply list_elem_of_here.
      * destruct (find (fun s => String.eqb (ChatSession.id s) p) (s0 :: S))
          as [s'|] eqn:Hf.
        -- rewrite (determineSession_restored email p _ s') by done.
           destruct (find_id_elem p _ _ Hf) as [Hin Hid].
           repeat split; try done. by rewrite Hid.
        -- rewrite (determineSession_stale email p) by done.
           destruct (refusal w s0);
             unfold pointer; cbn; repeat split; try done.
           ++ intros k Hk. by rewrite lookup_delete_ne.
           ++ intros k Hk. by rewrite lookup_insert_ne, lookup_delete_ne.
           ++ by rewrite lookup_insert_eq.
           ++ apply list_elem_of_here.
    + rewrite determineSession_recent by (by left).
      destruct (refusal w s0);
        unfold pointer; cbn; repeat split; try done.
      * intros k Hk. by rewrite lookup_insert_ne.
      * by rewrite lookup_insert_eq.
      * apply list_elem_of_here.
Qed.

(** What every run of the reconciler does, whatever the backend answers
    and whether or not the browser accepts the write of the pointer. *)
Lemma initialize_summary (w : World E) :
  let w' := exec initializeUserAndChat w in
  initLoading (ui w') = false ∧
  sameControls (ui w) (ui w') ∧
  (∀ k, k ≠ SESSION_KEY → localStorage w' !! k = localStorage w !! k) ∧
  (∃ issued, calls w' = calls w ++ issued ∧ ReconcileRequests issued) ∧
  (is_Some (principal (session (ui w))) → PointerAgrees w') ∧
  (principal (session (ui w)) = None →
   localStorage w' = localStorage w ∧ chatSession (ui w') = chatSession (ui w)).
Proof.
  unfold PointerAgrees, sameControls.
  destruct (principal (session (ui w))) as [[user email]|] eqn:Hprin.
  2:{ run. rewrite Hprin. cbn. repeat split; try done.
      exists []. split; [by rewrite app_nil_r | constructor]. }
  destruct (answer (post_users_register email (displayName user email)) (env w))
    as [[usr|err] e1] eqn:Hreg.
  2:{ run. reply Hprin. reply Hreg. rewrite lookup_delete_eq.
      repeat split; try done.
      - intros k Hk. by rewrite lookup_delete_ne.
      - eexists. split; [done | constructor]. }
  destruct (answer (get_chat_sessions email) e1) as [[reply|err] e2] eqn:Hlist.
  2:{ run. reply Hprin. reply Hreg. reply Hlist. rewrite lookup_delete_eq.
      repeat split; try done.
      - intros k Hk. by rewrite lookup_delete_ne.
      - eexists. split; [by rewrite <- app_assoc | constructor]. }
  run. reply Hprin. reply Hreg. reply Hlist.
  match goal with
  | |- context [determineSession email ?S ?w0] =>
      pose proof (determineSession_frame email S w0) as Hframe;
      destruct (determineSession email S w0) as [[[s hydrate]|err] w1]
  end; cbn in Hframe; destruct Hframe as (Hui & Hkeys & Hsome & Hnone & Hsel);
    cbn.
  - destruct Hsel as [Hp Hin]. unfold pointer in Hp. destruct hydrate; cbn.
    + assert (SessionsReply.sessions reply ≠ []) as HS by (by intros Heq; rewrite Heq in Hin; apply elem_of_nil in Hin).
      destruct (Hsome HS) as [Hcalls Henv].
      destruct (answer (get_messages _) (env w1)) as [[history|err] e3]; cbn;
        rewrite Hui, Hcalls; cbn; (repeat split; try done);
        try (eexists; split; [by rewrite <- !app_assoc | constructor]).
    + rewrite Hui, (Hnone Hin). cbn. repeat split; try done.
      eexists; split; [by rewrite <- !app_assoc | constructor].
  - rewrite Hui, lookup_delete_eq. cbn.
    repeat split; try done.
    + intros k Hk. by rewrite lookup_delete_ne, Hkeys.
    + destruct (SessionsReply.sessions reply) as [|s0 S].
      * rewrite (Hnone eq_refl).
        eexists; split; [by rewrite <- !app_assoc | constructor].
      * destruct (Hsome ltac:(done)) as [-> _].
        eexists; split; [by rewrite <- !app_assoc | constructor].
Qed.

(** X4. Whatever the state it starts from, whatever the backend answers
    and whether or not the browser accepts the write of the pointer, a run
    of the reconciler ends with the initializing flag down; it leaves the
    input, the sending flag, the identity session and the sign-in controls
    as they were; of the local storage it touches the session pointer
    only; and the requests it issues are, in this order, the upsert, the
    listing, and then either the creation of a session or the history of
    one: never more than three, never one twice, never a message to store
    or a question to answer. *)
Theorem reconcile_frame_and_requests (w : World E) :
  let w' := exec initializeUserAndChat w in
  initLoading (ui w') = false ∧
  sameControls (ui w) (ui w') ∧
  (∀ k, k ≠ SESSION_KEY → localStorage w' !! k = localStorage w !! k) ∧
  ∃ issued, calls w' = calls w ++ issued ∧ ReconcileRequests issued.
Proof.
  destruct (initialize_summary w) as (Hinit & Hctl & Hkeys & Hcalls & _).
  done.
Qed.

(** X5. When the history of the selected session is received, the view
    shows exactly the messages received, in the order received, in place
    of what it showed before: same identifiers, same contents, the role
    [user] shown as [user] and the role [assistant] as [ai].  None of them
    carries sources, so no source card is rendered for a restored answer.
    No error is shown. *)
Theorem hydration_shows_backend_history (w : World E) (email name : string)
    (S : list ChatSession.t) (e e' : E) (s : ChatSession.t)
    (history : MessagesReply.t) :
  Listed w email name S e →
  outcome (determineSession email S) w = Returned (s, true) →
  answer (get_messages (ChatSession.id s)) e = (Returned history, e') →
  let w' := exec initializeUserAndChat w in
  let received := MessagesReply.messages history in
  chatSession (ui w') = Some s ∧
  error (ui w') = None ∧
  map Message.id (messages (ui w')) = map BackendMessage.id received ∧
  map Message.content (messages (ui w')) = map BackendMessage.content received ∧
  map Message.type (messages (ui w')) =
    map (fun m => match BackendMessage.role m with
                  | RoleUser => TypeUser
                  | RoleAssistant => TypeAi
                  end) received ∧
  ∀ m, m ∈ messages (ui w') → sourcesShown m = false.
Proof.
  intros (user & usr & e1 & reply & Hprin & -> & Hreg & Hlist & <-)
    Hsel Hfetch.
  run. reply Hprin. reply Hreg. reply Hlist.
  edestruct (determineSession_hydrate email (SessionsReply.sessions reply) s w)
    as (w1 & -> & Hui & He & Hc & Hp); [exact Hsel|reflexivity..|].
  cbn in *. rewrite He. reply Hfetch. rewrite Hui. cbn.
  rewrite !map_map. cbn. repeat split; try done.
  intros m [m0 [-> _]]%list_elem_of_fmap. unfold sourcesShown. cbn.
  by destruct (BackendMessage.role m0).
Qed.

(** X6. When the upsert is answered with an HTTP error status whose body
    can be read, the reconciler stops there and the banner shows
    "API Error: ", the status text, " - " and the body; the banner is
    rendered (that text is never empty) and the hint of the empty
    conversation is not. *)
Theorem upsert_http_error_is_shown (w : World E) (user : AuthUser.t)
    (email body : string) (r : Response User.t) (e1 : E) :
  principal (session (ui w)) = Some (user, email) →
  post_users_register email (displayName user email) (env w) = (Resolved r, e1) →
  ok r = false →
  text r = Returned body →
  let w' := exec initializeUserAndChat w in
  errorBanner (ui w') = Some ("API Error: " +:+ statusText r +:+ " - " +:+ body) ∧
  emptyStateShown (ui w') = false ∧
  calls w' = calls w ++ [CallRegisterUser email (displayName user email)] ∧
  chatSession (ui w') = None ∧
  pointer w' = None.
Proof.
  intros Hprin Hfetch Hok Htext.
  assert (answer (post_users_register email (displayName user email)) (env w)
            = (Thrown (ApiError (status r)
                         ("API Error: " +:+ statusText r +:+ " - " +:+ body)), e1))
    as Hreg.
  { unfold answer, handleResponse. by rewrite Hfetch, Hok, Htext. }
  run. reply Hprin. reply Hreg. unfold errorBanner, emptyStateShown. cbn.
  rewrite lookup_delete_eq. done.
Qed.

(** X19. A write of the pointer that the browser refuses aborts
    initialization as a failed request does.  When the stored pointer
    names no listed session and [setItem] throws for the session [s] that
    step 3 has chosen (the most recent of the list, or the one just
    created for an empty list), no session is active, no pointer is
    stored, the message list is empty, the error kept is the message of
    what [setItem] threw (the fallback text when that is not an [Error]),
    the initializing flag is down and no history is requested.  The
    creation request, when there was one, has been issued all the same. *)
Theorem refused_write_aborts_initialization (w : World E)
    (email name : string) (S : list ChatSession.t) (e : E)
    (s : ChatSession.t) (err : exn) :
  Listed w email name S e →
  (∀ s', s' ∈ S → pointer w ≠ Some (ChatSession.id s')) →
  match S with
  | s0 :: _ => s = s0
  | [] =>
      ∃ reply e',
        answer (post_chat_create email "New Conversation") e
          = (Returned reply, e') ∧
        CreateReply.session reply = s
  end →
  refusal w s = Some err →
  let w' := exec initializeUserAndChat w in
  let text :=
    match err with
    | ApiError _ message | OtherError message => message
    | NonErrorValue => "Initialization failed. Please try refreshing."
    end in
  chatSession (ui w') = None ∧
  pointer w' = None ∧
  messages (ui w') = [] ∧
  error (ui w') = Some text ∧
  initLoading (ui w') = false ∧
  calls w' = calls w ++
    [CallRegisterUser email name; CallGetUserSessions email] ++
    match S with
    | [] => [CallCreateChatSession email "New Conversation"]
    | _ :: _ => []
    end.
Proof.
  intros (user & usr & e1 & reply & Hprin & -> & Hreg & Hlist & <-)
    Hout Hs Hq.
  run. reply Hprin. reply Hreg. reply Hlist.
  destruct (SessionsReply.sessions reply) as [|s0 S].
  - destruct Hs as (created & e' & Hcreate & <-).
    rewrite determineSession_empty. cbn. reply Hcreate.
    unfold refusal in *. cbn. rewrite Hq. cbn.
    rewrite lookup_delete_eq, <- !app_assoc. by destruct err.
  - subst s0.
    match goal with
    | |- context [determineSession email (s :: S) ?w2] =>
        destruct (determineSession_absent email s S w2 Hout)
          as (w1 & Hsel & Hui & He & Hc)
    end.
    unfold refusal in *. cbn in *. rewrite Hq in Hsel. rewrite Hsel. cbn.
    rewrite Hc, lookup_delete_eq, <- !app_assoc. cbn. by destruct err.
Qed.

End ReconcilerMore.

(** ** Further properties of sending a message *)

Lemma trimStart_blank (s : string) : blank s → trimStart s = "".
Proof.
  unfold blank. induction s as [|c r IH]; [done|]. intros Hblank. cbn in *.
  rewrite (Hblank c) by apply list_elem_of_here.
  apply IH. intros c' Hin. apply Hblank. by apply list_elem_of_further.
Qed.

Lemma blank_trimStart (s : string) : blank (trimStart s) → blank s.
Proof.
  unfold blank. induction s as [|c r IH]; [done|]. cbn.
  destruct (is_white_space c) eqn:Hc; [|done].
  intros Hblank c' [-> | Hin]%elem_of_cons; [done | by apply IH].
Qed.

Lemma blank_trimEnd (s : string) : trimEnd s = "" → blank s.
Proof.
  unfold blank. induction s as [|c r IH]; cbn.
  { intros _ c Hin. by apply elem_of_nil in Hin. }
  destruct (is_white_space c) eqn:Hc; cbn; [|done].
  destruct (String.eqb_spec (trimEnd r) "") as [Hr|]; [|done].
  intros _ c' [-> | Hin]%elem_of_cons; [done | by apply IH].
Qed.

(** [trim] gives the empty string exactly on the strings made of white
    space only. *)
Lemma trim_empty_iff_blank (s : string) : trim s = "" ↔ blank s.
Proof.
  unfold trim. split.
  - intros Hempty. by apply blank_trimStart, blank_trimEnd.
  - intros Hblank. by rewrite trimStart_blank.
Qed.

Section SendingMore.
Context {E : Type} `{!Backend E}.
Context (stored : E -> list StoredMessage) `{!MessageStore stored}.

(** Whatever the state and the backend, [handleSubmit] returns, and it
    leaves the local storage, the identity session, the user and the
    active chat session as they were. *)
Lemma submit_frame (w : World E) :
  let w' := exec handleSubmit w in
  outcome handleSubmit w = Returned tt ∧
  localStorage w' = localStorage w ∧
  storage_log w' = storage_log w ∧
  session (ui w') = session (ui w) ∧
  currentUser (ui w') = currentUser (ui w) ∧
  chatSession (ui w') = chatSession (ui w) ∧
  initLoading (ui w') = initLoading (ui w).
Proof.
  run. destruct (truthy (trim (input (ui w)))); cbn; [|done].
  destruct (principal (session (ui w))) as [pr|]; cbn; [|done].
  destruct (chatSession (ui w)) as [cs|] eqn:Hcs; cbn; [|done].
  destruct (answer (post_messages_store _ RoleUser _) _) as [[ack|err] e1];
    cbn; [|done].
  destruct (answer (get_chat_stream _) _) as [[data|err] e2]; cbn; [|done].
  by destruct (answer (post_messages_store _ RoleAssistant _) _)
    as [[ack'|err] e3].
Qed.

(** X7. A submit whose input is empty or made of white space only does
    nothing at all: no message is shown, no error is set, no request is
    issued, the input is left as typed. *)
Theorem blank_submit_is_ignored (w : World E) :
  blank (input (ui w)) → handleSubmit w = (Returned tt, w).
Proof.
  intros Hblank%trim_empty_iff_blank. run. by rewrite Hblank.
Qed.

(** X8. A submit with some text is refused when nobody is signed in, with
    "Please sign in to chat", and otherwise when no chat session is
    active, with "Chat session not initialized. Please refresh the page.":
    it sets that error and does nothing else, so that the text stays in
    the input, no message is shown and no request is issued. *)
Theorem submit_is_refused_without_session (w : World E) :
  truthy (trim (input (ui w))) = true →
  principal (session (ui w)) = None ∨ chatSession (ui w) = None →
  exec handleSubmit w =
    on_ui (with_error
             (Some (match principal (session (ui w)) with
                    | None => "Please sign in to chat"
                    | Some _ =>
                        "Chat session not initialized. Please refresh the page."
                    end))) w.
Proof.
  intros Htext Hguard. run. reply Htext.
  destruct (principal (session (ui w))) as [pr|]; cbn; [|done].
  by destruct Hguard as [[=] | ->].
Qed.

(** X9. Once its guards are passed, a submit always comes to an end,
    whatever the backend answers: it returns with the sending flag down and
    the input emptied; its first request stores the input with role user
    for the active session, and at most two requests follow; the user's
    message is added to the view, followed by the answer exactly when no
    error is set, in which case the requests were the three of a complete
    send; the local storage, the identity session, the user and the active
    session are untouched. *)
Theorem send_always_completes (w : World E) (q : string) (cs : ChatSession.t) :
  Sendable w q cs →
  let w' := exec handleSubmit w in
  outcome handleSubmit w = Returned tt ∧
  loading (ui w') = false ∧
  input (ui w') = "" ∧
  localStorage w' = localStorage w ∧
  session (ui w') = session (ui w) ∧
  currentUser (ui w') = currentUser (ui w) ∧
  chatSession (ui w') = Some cs ∧
  ∃ issued shown,
    calls w' = calls w ++ CallStoreMessage (ChatSession.id cs) RoleUser q :: issued ∧
    messages (ui w') = messages (ui w) ++ userMessageOf w q :: shown ∧
    ((shown = [] ∧ is_Some (error (ui w')) ∧ (length issued ≤ 2)%nat) ∨
     (∃ data, shown = [aiMessageOf (env w') data] ∧ error (ui w') = None ∧
              issued = [CallSendChatMessage q;
                        CallStoreMessage (ChatSession.id cs) RoleAssistant
                          (ChatResponse.final_answer data)])).
Proof.
  intros (Hq & Hblank & [pr Hprin] & Hcs).
  run. reply Hq. reply Hblank. reply Hprin. reply Hcs.
  destruct (answer (post_messages_store _ RoleUser _) _) as [[ack|err] e1]; cbn.
  2:{ repeat split; try done. exists [], []. rewrite <- ?app_assoc.
      repeat split; try done. left. repeat split; [by eexists | cbn; lia]. }
  destruct (answer (get_chat_stream _) _) as [[data|err] e2]; cbn.
  2:{ repeat split; try done. exists [CallSendChatMessage q], [].
      rewrite <- ?app_assoc. repeat split; try done.
      left. cbn. repeat split; [by eexists | cbn; lia]. }
  destruct (answer (post_messages_store _ RoleAssistant _) _)
    as [[ack'|err] e3]; cbn.
  - repeat split; try done. eexists _, [_]. rewrite <- ?app_assoc.
    repeat split; try done. right. by exists data.
  - repeat split; try done. eexists [_; _], []. rewrite <- ?app_assoc.
    repeat split; try done. left. cbn. repeat split; [by eexists | cbn; lia].
Qed.

(** X10. When the request to store the user's message itself fails, the
    message is in the view although the message store does not hold it:
    the store is as before, that request is the only one issued, the error
    of the failure is set, and the text is gone from the input. *)
Theorem unsaved_message_stays_in_view (w : World E) (q : string)
    (cs : ChatSession.t) (err : exn) (e : E) :
  Sendable w q cs →
  answer (post_messages_store (ChatSession.id cs) RoleUser q) (env w)
    = (Thrown err, e) →
  let w' := exec handleSubmit w in
  messages (ui w') = messages (ui w) ++ [userMessageOf w q] ∧
  stored (env w') = stored (env w) ∧
  calls w' = calls w ++ [CallStoreMessage (ChatSession.id cs) RoleUser q] ∧
  error (ui w') = Some (message_or err "Failed to fetch response") ∧
  input (ui w') = "" ∧
  loading (ui w') = false.
Proof.
  intros (Hq & Hblank & [pr Hprin] & Hcs) Hstore.
  run. reply Hq. reply Hblank. reply Hprin. reply Hcs. reply Hstore.
  by rewrite (store_failure_keeps _ _ _ _ _ _ Hstore).
Qed.

(** X11. After an initialization that failed, a submit is refused: the
    requests issued are those of the initialization alone, no message is
    shown, the text stays in the input, and the error of the
    initialization is replaced by "Chat session not initialized. Please
    refresh the page.". *)
Theorem submit_is_refused_after_failed_init (w : World E)
    (email name : string) (err : exn) (issued : list Call) (e : E) :
  InitFailure w email name err issued e →
  truthy (trim (input (ui w))) = true →
  let w' := exec (initializeUserAndChat;; handleSubmit) w in
  error (ui w') =
    Some "Chat session not initialized. Please refresh the page." ∧
  calls w' = calls w ++ issued ∧
  env w' = e ∧
  messages (ui w') = [] ∧
  input (ui w') = input (ui w) ∧
  pointer w' = None.
Proof.
  intros [user err' e1 Hprin -> Hreg
         |user usr e1 err' e2 Hprin -> Hreg Hlist
         |e0 err' e' (user & usr & e1 & reply & Hprin & -> & Hreg & Hlist & HS)
            Hcreate] Htext; unfold trim in Htext.
  - run. reply Hprin. reply Hreg. reply Htext. reply Hprin.
    by rewrite lookup_delete_eq.
  - run. reply Hprin. reply Hreg. reply Hlist. reply Htext. reply Hprin.
    by rewrite lookup_delete_eq, <- !app_assoc.
  - run. reply Hprin. reply Hreg. reply Hlist. rewrite HS.
    rewrite determineSession_empty. cbn. reply Hcreate.
    reply Htext. reply Hprin.
    by rewrite lookup_delete_eq, <- !app_assoc.
Qed.

End SendingMore.

(** ** The pointer and the active session *)

Section Agreement.
Context {E : Type} `{!Backend E}.

(** X12. From the first reconciliation of a signed-in tab on, the stored
    pointer names the active chat session, and there is no stored pointer
    while no session is active: a reconciliation with a principal
    establishes this from any state and whatever the backend answers; one
    without a principal, a submit, and the listener keep it; and the
    listener establishes it when it reports that there is no session. *)
Theorem pointer_names_active_session (w : World E) :
  (is_Some (principal (session (ui w))) ∨ PointerAgrees w →
   PointerAgrees (exec initializeUserAndChat w)) ∧
  (PointerAgrees w → PointerAgrees (exec handleSubmit w)) ∧
  (∀ isMounted newSession,
     (isMounted = true ∧ newSession = None) ∨ PointerAgrees w →
     PointerAgrees (exec (onAuthStateChange isMounted newSession) w)).
Proof.
  split; [|split].
  - destruct (initialize_summary w) as (_ & _ & _ & _ & Hsome & Hnone).
    intros [Hprin | Hagree]; [by apply Hsome|].
    destruct (principal (session (ui w))) as [pr|] eqn:Hprin;
      [by apply Hsome|].
    destruct (Hnone eq_refl) as [Hls Hcs].
    unfold PointerAgrees, pointer in *. by rewrite Hls, Hcs.
  - destruct (submit_frame w) as (_ & Hls & _ & _ & _ & Hcs & _).
    unfold PointerAgrees, pointer. by rewrite Hls, Hcs.
  - intros [|] [a|] [[? ?] | Hagree]; try done; unfold PointerAgrees; run;
      by rewrite ?lookup_delete_eq.
Qed.

End Agreement.

(** ** Properties of the handlers of the identity provider *)

Section IdentityMore.
Context {E : Type} `{!IdentityProvider E}.

(** X13. The sign-in and sign-out buttons act on the sign-in controls
    only.  Whatever the provider does, the handler returns with the
    connecting flag down; [authError] holds the message the provider
    reported, or that of its rejection ("Sign-in failed" or "Sign-out
    failed" when the rejection is not an error object), and nothing when
    the call succeeded; the conversation, its error banner, the identity
    session, the local storage and the request log are untouched: signing
    out, in particular, does not by itself end the session or remove the
    pointer. *)
Theorem identity_handlers_keep_conversation (w : World E)
    (origin : option string) :
  (let w' := exec (handleGoogleSignIn origin) w in
   outcome (handleGoogleSignIn origin) w = Returned tt ∧
   authLoading (ui w') = false ∧
   authError (ui w') =
     reported (fst (auth_signInWithOAuth origin (env w))) "Sign-in failed" ∧
   sameConversation (ui w) (ui w') ∧
   session (ui w') = session (ui w) ∧
   localStorage w' = localStorage w ∧
   calls w' = calls w) ∧
  (let w' := exec handleSignOut w in
   outcome handleSignOut w = Returned tt ∧
   authLoading (ui w') = false ∧
   authError (ui w') = reported (fst (auth_signOut (env w))) "Sign-out failed" ∧
   sameConversation (ui w) (ui w') ∧
   session (ui w') = session (ui w) ∧
   localStorage w' = localStorage w ∧
   calls w' = calls w).
Proof.
  unfold sameConversation. split; run_rest.
  - by destruct (auth_signInWithOAuth origin (env w)) as [[[message|]|err] e].
  - by destruct (auth_signOut (env w)) as [[[message|]|err] e].
Qed.

End IdentityMore.

(** ** Properties of the header *)

Lemma split_space_0_no_space (s : string) (c : ascii) :
  c ∈ list_ascii_of_string (split_space_0 s) → is_white_space c = false.
Proof.
  induction s as [|c0 r IH]; cbn.
  { by intros ?%elem_of_nil. }
  destruct (is_white_space c0) eqn:Hc0; cbn.
  { by intros ?%elem_of_nil. }
  by intros [-> | Hin]%elem_of_cons; [|apply IH].
Qed.

Lemma trimStart_head (s : string) (c : ascii) (r : string) :
  trimStart s = String c r → is_white_space c = false.
Proof.
  induction s as [|c0 r0 IH]; cbn; [done|].
  destruct (is_white_space c0) eqn:Hc0; [done|]. by intros [= <- <-].
Qed.

(** A trimmed string is empty or starts with a character that is not
    white space. *)
Lemma trim_head (s : string) :
  trim s = "" ∨ ∃ c r, trim s = String c r ∧ is_white_space c = false.
Proof.
  unfold trim. destruct (trimStart s) as [|c r] eqn:Hs; [by left|].
  right. pose proof (trimStart_head _ _ _ Hs) as Hc. cbn. rewrite Hc. cbn.
  by eexists _, _.
Qed.

Lemma split_at_0_prefix (s : string) :
  (∀ c, c ∈ list_ascii_of_string (split_at_0 s) → c ≠ "@"%char) ∧
  ∃ rest, s = split_at_0 s +:+ rest ∧
          (rest = "" ∨ ∃ r, rest = String "@" r).
Proof.
  induction s as [|c0 r IH]; cbn.
  { split; [by intros c ?%elem_of_nil | exists ""; by split; [|left]]. }
  destruct (Ascii.eqb_spec c0 "@") as [-> | Hne]; cbn.
  - split; [by intros c ?%elem_of_nil|]. eexists. split; [done|]. right. eauto.
  - destruct IH as [Hno (rest & Heq & Hrest)]. split.
    + by intros c [-> | Hin]%elem_of_cons; [|apply Hno].
    + exists rest. split; [|done].
      change (String c0 r = String c0 (split_at_0 r +:+ rest)). by f_equal.
Qed.

(** X14. The first name greeted in the header is never empty and holds no
    white space, whatever the backend and the provider supply, "there"
    being greeted when they supply no name; so the avatar always shows the
    upper case of its first character, and the "?" the code provides for an
    empty first name is never shown. *)
Theorem first_name_is_never_empty (currentUser : option User.t)
    (session : option AuthSession.t) (metadataName : option string)
    (toUpperCase : string → string) :
  let shown := firstName (resolvedName currentUser session metadataName) in
  shown ≠ "" ∧
  (∀ c, c ∈ list_ascii_of_string shown → is_white_space c = false) ∧
  charAt_0 shown ≠ "" ∧
  avatarLetter toUpperCase shown = toUpperCase (charAt_0 shown) ∧
  (resolvedName currentUser session metadataName = "" → shown = "there").
Proof.
  cbn zeta. unfold resolvedName.
  destruct (trim_head
              (js_or_opt (User.name <$> currentUser)
                 (js_or_opt (sessionFullName session)
                    (js_or_opt metadataName
                       (js_or_opt (split_at_0 <$> sessionEmail session) "")))))
    as [-> | (c & r & -> & Hc)].
  - repeat split; try done. intros c Hin. cbn in Hin.
    repeat (apply elem_of_cons in Hin as [-> | Hin]; [done|]).
    by apply elem_of_nil in Hin.
  - unfold firstName, avatarLetter. cbn. rewrite Hc. cbn.
    repeat split; try done.
    intros c' [-> | Hin]%elem_of_cons; [done|].
    by apply (split_space_0_no_space r).
Qed.

(** X15. The name the backend returned for the user takes precedence in
    the header over the names of the provider as soon as it is not empty,
    even when it is made of white space only: the header then greets
    "there", whatever names the provider supplies. *)
Theorem blank_backend_name_hides_provider_names (user : User.t)
    (session : option AuthSession.t) (metadataName : option string) :
  User.name user ≠ "" →
  resolvedName (Some user) session metadataName = trim (User.name user) ∧
  (blank (User.name user) →
   firstName (resolvedName (Some user) session metadataName) = "there").
Proof.
  intros Hname.
  assert (resolvedName (Some user) session metadataName = trim (User.name user))
    as ->.
  { unfold resolvedName. f_equal.
    change (js_or (User.name user)
              (js_or_opt (sessionFullName session)
                 (js_or_opt metadataName
                    (js_or_opt (split_at_0 <$> sessionEmail session) "")))
            = User.name user).
    unfold js_or. by rewrite (truthy_ne _ Hname). }
  split; [done|].
  intros Hblank%trim_empty_iff_blank. unfold firstName. by rewrite Hblank.
Qed.

(** X16. The name sent with the upsert is the provider's [full_name] when
    there is a non-empty one, and otherwise the part of the email before
    its first "@": a prefix of the email that holds no "@". *)
Theorem upsert_name_defaults_to_local_part (user : AuthUser.t) (email : string) :
  (∀ n, AuthUser.full_name user = Some n → n ≠ "" →
        displayName user email = n) ∧
  (AuthUser.full_name user = None ∨ AuthUser.full_name user = Some "" →
   displayName user email = split_at_0 email ∧
   (∀ c, c ∈ list_ascii_of_string (displayName user email) → c ≠ "@"%char) ∧
   ∃ rest, email = displayName user email +:+ rest ∧
           (rest = "" ∨ ∃ r, rest = String "@" r)).
Proof.
  unfold displayName. split.
  - intros n -> Hn. cbn. unfold js_or. by rewrite (truthy_ne _ Hn).
  - intros Hnone.
    assert (js_or_opt (AuthUser.full_name user) (split_at_0 email)
              = split_at_0 email) as -> by (by destruct Hnone as [-> | ->]).
    split; [done|]. apply split_at_0_prefix.
Qed.

(** ** Reloading the page *)

Section Reload.
Context {E : Type} `{!Backend E} `{!IdentityProvider E}.

(** X17. Reloading the page resumes the conversation.  When the identity
    provider still holds a session, the loading of that session followed
    by the reconciliation it triggers ends, from any state of the view,
    with that session signed in, the chat session named by the (non-empty,
    listed) stored pointer active, its history shown once received, the
    pointer unchanged and nothing written to the local storage. *)
Theorem reload_resumes_conversation (w : World E) (a : AuthSession.t)
    (e0 e e' : E) (email name p : string) (S : list ChatSession.t)
    (s : ChatSession.t) (history : MessagesReply.t) :
  auth_getSession (env w) = (Returned (AuthReply.mk (Some a) None), e0) →
  Listed (on_ui (with_session (Some a)) (with_env e0 w)) email name S e →
  pointer w = Some p → p ≠ "" →
  s ∈ S → ChatSession.id s = p →
  answer (get_messages p) e = (Returned history, e') →
  let w' := exec (loadSession true;; initializeUserAndChat) w in
  session (ui w') = Some a ∧
  (∃ s', chatSession (ui w') = Some s' ∧ ChatSession.id s' = p ∧ s' ∈ S) ∧
  pointer w' = Some p ∧
  messages (ui w') = map toUiMessage (MessagesReply.messages history) ∧
  initLoading (ui w') = false ∧
  error (ui w') = None ∧
  storage_log w' = storage_log w.
Proof.
  intros Hauth (user & usr & e1 & reply & Hprin & -> & Hreg & Hlist & <-)
    Hp Hne Hin Hid Hfetch.
  cbn in Hprin, Hreg.
  destruct (find_id_is_Some p _ s Hin Hid) as [s' Hf].
  destruct (find_id_elem p _ _ Hf) as [Hin' Hid'].
  run_rest. reply Hauth. reply Hprin. reply Hreg. reply Hlist.
  rewrite (determineSession_restored email p _ s'); [|done..]. cbn.
  rewrite Hid'. reply Hfetch. repeat split; try done. by exists s'.
Qed.

End Reload.

(** ** The chat page without accounts *)

Section LegacyMore.
Context {E : Type} `{!Backend E}.
Context (stored : E -> list StoredMessage) `{!MessageStore stored}.

(** X18. A submit on the page without accounts issues one request, the
    synthesis for the text as typed, and never asks the backend to store a
    message: the message store is left as it was, the answered question and
    its answer living in the view only.  It always returns with the
    sending flag down and the input emptied, the question shown; and when
    the backend answers with an HTTP error status the error shown is
    "Backend error: " followed by the status text, the body being left
    unread. *)
Theorem legacy_submit_stores_nothing (w : World E) (q : string) :
  input (ui w) = q →
  truthy (trim q) = true →
  let w' := exec legacyHandleSubmit w in
  outcome legacyHandleSubmit w = Returned tt ∧
  calls w' = calls w ++ [CallSendChatMessage q] ∧
  stored (env w') = stored (env w) ∧
  loading (ui w') = false ∧
  input (ui w') = "" ∧
  (∃ shown, messages (ui w') = messages (ui w) ++ userMessageOf w q :: shown ∧
            (shown = [] ↔ is_Some (error (ui w')))) ∧
  (∀ r e, get_chat_stream q (env w) = (Resolved r, e) → ok r = false →
          error (ui w') = Some ("Backend error: " +:+ statusText r)).
Proof.
  intros Hq Hblank.
  assert (stored (snd (get_chat_stream q (env w))) = stored (env w)) as Hkeep.
  { pose proof (synthesis_keeps (stored := stored) q (env w)) as Hk.
    unfold answer in Hk.
    by destruct (get_chat_stream q (env w)) as [[err|r] e]. }
  unfold legacyHandleSubmit, fetchResponse. run_rest.
  reply Hq. reply Hblank.
  destruct (get_chat_stream q (env w)) as [[err|r] e]; cbn in *.
  - repeat split; try done. exists []. split; [done|]. split; [by eexists|done].
  - destruct (ok r) eqn:Hok; cbn.
    + assert (∀ r' (e0 : E), (Resolved r, e) = (Resolved r', e0) →
                ok r' = false → False) as Hnot.
      { intros r' e0 [= <- <-] Hno. by rewrite Hok in Hno. }
      destruct (json r) as [data|err]; cbn; repeat split; try done;
        try (intros r' e0 Heq Hno; by destruct (Hnot r' e0 Heq Hno)).
      * eexists [_]. rewrite <- app_assoc. split; [done|].
        split; [done | by intros [? [=]]].
      * exists []. split; [done|]. split; [by eexists|done].
    + repeat split; try done.
      * exists []. split; [done|]. split; [by eexists|done].
      * by intros r' e'' [= <- <-] _.
Qed.

End LegacyMore.

(** ** Further concrete runs *)

(** Three spaces typed in an active conversation. *)
Lemma blank_submit_is_ignored_witness :
  let w := Sample.world (Sample.typing "   ") (Some "abc")
             (Sample.answering [Scripted.ok200 Sample.stored] [] []) in
  blank (input (ui w)) ∧ handleSubmit w = (Returned tt, w).
Proof.
  intros w.
  assert (blank (input (ui w))) as Hblank.
  { intros c Hin. cbn in Hin.
    repeat (apply elem_of_cons in Hin as [-> | Hin]; [reflexivity|]).
    by apply elem_of_nil in Hin. }
  split; [exact Hblank|]. exact (blank_submit_is_ignored w Hblank).
Defined.

(** Some text typed while signed in, no chat session being active. *)
Lemma submit_is_refused_without_session_witness :
  let w := Sample.world (with_input "hi" Sample.mounted) None Sample.down in
  truthy (trim (input (ui w))) = true ∧
  (principal (session (ui w)) = None ∨ chatSession (ui w) = None) ∧
  exec handleSubmit w =
    on_ui (with_error
             (Some "Chat session not initialized. Please refresh the page.")) w.
Proof.
  intros w. split; [reflexivity|]. split; [by right|].
  exact (submit_is_refused_without_session w eq_refl (or_intror eq_refl)).
Defined.

(** A question whose answer cannot be stored. *)
Lemma send_always_completes_witness :
  let q := "What is Spectra?" in
  let w := Sample.world (Sample.typing q) (Some "abc")
             (Sample.answering [Scripted.ok200 Sample.stored]
                [Scripted.ok200 Sample.spectra] []) in
  Sendable w q Sample.abc ∧
  let w' := exec handleSubmit w in
  outcome handleSubmit w = Returned tt ∧
  loading (ui w') = false ∧
  input (ui w') = "" ∧
  localStorage w' = localStorage w ∧
  session (ui w') = session (ui w) ∧
  currentUser (ui w') = currentUser (ui w) ∧
  chatSession (ui w') = Some Sample.abc ∧
  ∃ issued shown,
    calls w' = calls w ++ CallStoreMessage "abc" RoleUser q :: issued ∧
    messages (ui w') = messages (ui w) ++ userMessageOf w q :: shown ∧
    ((shown = [] ∧ is_Some (error (ui w')) ∧ (length issued ≤ 2)%nat) ∨
     (∃ data, shown = [aiMessageOf (env w') data] ∧ error (ui w') = None ∧
              issued = [CallSendChatMessage q;
                        CallStoreMessage "abc" RoleAssistant
                          (ChatResponse.final_answer data)])).
Proof.
  intros q w.
  assert (Sendable w q Sample.abc) as HS.
  { repeat split; try reflexivity. by eexists. }
  split; [exact HS|]. exact (send_always_completes w q Sample.abc HS).
Defined.

(** The network is down when the question is to be stored. *)
Lemma unsaved_message_stays_in_view_witness :
  let q := "What is Spectra?" in
  let w := Sample.world (Sample.typing q) (Some "abc")
             (Sample.answering [] [] []) in
  let err := OtherError "Failed to fetch" in
  Sendable w q Sample.abc ∧
  answer (post_messages_store "abc" RoleUser q) (env w)
    = (Thrown err, Sample.answering [] [] []) ∧
  let w' := exec handleSubmit w in
  messages (ui w') = [Message.mk "1000" TypeUser q None] ∧
  Scripted.kept (env w') = [] ∧
  calls w' = [CallStoreMessage "abc" RoleUser q] ∧
  error (ui w') = Some "Failed to fetch" ∧
  input (ui w') = "" ∧
  loading (ui w') = false.
Proof.
  intros q w err.
  assert (Sendable w q Sample.abc) as HS.
  { repeat split; try reflexivity. by eexists. }
  split; [exact HS|]. split; [reflexivity|].
  exact (unsaved_message_stays_in_view Scripted.kept w q Sample.abc err
           (Sample.answering [] [] []) HS eq_refl).
Defined.

(** The listing answers 500 and the user then submits some text. *)
Lemma submit_is_refused_after_failed_init_witness :
  let w := Sample.world (with_input "hi" Sample.mounted) (Some "abc")
             (Scripted.mk [Scripted.ok200 Sample.alice] [Scripted.error500]
                [] [] [] [] 1000 []) in
  let err := ApiError 500 "API Error: Internal Server Error - boom" in
  let issued := [CallRegisterUser "alice@example.com" "Alice";
                 CallGetUserSessions "alice@example.com"] in
  InitFailure w "alice@example.com" "Alice" err issued Sample.down ∧
  truthy (trim (input (ui w))) = true ∧
  let w' := exec (initializeUserAndChat;; handleSubmit) w in
  error (ui w') =
    Some "Chat session not initialized. Please refresh the page." ∧
  calls w' = calls w ++ issued ∧
  env w' = Sample.down ∧
  messages (ui w') = [] ∧
  input (ui w') = "hi" ∧
  pointer w' = None.
Proof.
  intros w err issued.
  assert (InitFailure w "alice@example.com" "Alice" err issued Sample.down)
    as HF by (eapply ListingFails; reflexivity).
  split; [exact HF|]. split; [reflexivity|].
  exact (submit_is_refused_after_failed_init w _ _ err issued Sample.down
           HF eq_refl).
Defined.

(** No stored pointer: the most recent session is selected and its history,
    one message, is received. *)
Lemma hydration_shows_backend_history_witness :
  let reply := MessagesReply.mk "xyz" 1 [Sample.hello] in
  let w := Sample.world (with_messages [Sample.shown; Sample.shown] Sample.mounted)
             None
             (Sample.with_history (Scripted.ok200 reply)
                (Sample.listing [Sample.xyz; Sample.abc])) in
  let e := Sample.with_history (Scripted.ok200 reply) Sample.down in
  Listed w "alice@example.com" "Alice" [Sample.xyz; Sample.abc] e ∧
  outcome (determineSession "alice@example.com" [Sample.xyz; Sample.abc]) w
    = Returned (Sample.xyz, true) ∧
  answer (get_messages "xyz") e = (Returned reply, Sample.down) ∧
  let w' := exec initializeUserAndChat w in
  chatSession (ui w') = Some Sample.xyz ∧
  error (ui w') = None ∧
  map Message.id (messages (ui w')) = ["m1"] ∧
  map Message.content (messages (ui w')) = ["hello"] ∧
  map Message.type (messages (ui w')) = [TypeUser] ∧
  ∀ m, m ∈ messages (ui w') → sourcesShown m = false.
Proof.
  intros reply w e.
  assert (Listed w "alice@example.com" "Alice" [Sample.xyz; Sample.abc] e)
    as HL by listed.
  split; [exact HL|]. split; [reflexivity|]. split; [reflexivity|].
  exact (hydration_shows_backend_history w _ _ _ e Sample.down Sample.xyz reply
           HL eq_refl eq_refl).
Defined.

(** The upsert answers 500 with the body "boom". *)
Lemma upsert_http_error_is_shown_witness :
  let w := Sample.world Sample.mounted (Some "abc")
             (Scripted.mk [Scripted.error500] [] [] [] [] [] 1000 []) in
  let user := AuthUser.mk (Some "alice@example.com") (Some "Alice") in
  let r : Response User.t :=
    mkResponse false 500 "Internal Server Error" (Returned "boom")
      (Thrown (OtherError "Unexpected token")) in
  principal (session (ui w)) = Some (user, "alice@example.com") ∧
  post_users_register "alice@example.com" "Alice" (env w)
    = (Resolved r, Sample.down) ∧
  let w' := exec initializeUserAndChat w in
  errorBanner (ui w') = Some "API Error: Internal Server Error - boom" ∧
  emptyStateShown (ui w') = false ∧
  calls w' = calls w ++ [CallRegisterUser "alice@example.com" "Alice"] ∧
  chatSession (ui w') = None ∧
  pointer w' = None.
Proof.
  intros w user r. split; [reflexivity|]. split; [reflexivity|].
  exact (upsert_http_error_is_shown w user "alice@example.com" "boom" r
           Sample.down eq_refl eq_refl eq_refl eq_refl).
Defined.

(** A tab just mounted with the pointer of an earlier visit: the pointer
    names no active session until the reconciliation of the signed-in tab
    has run. *)
Lemma pointer_names_active_session_witness :
  let w := Sample.world Sample.mounted (Some "abc")
             (Sample.listing [Sample.xyz]) in
  ¬ PointerAgrees w ∧
  is_Some (principal (session (ui w))) ∧
  PointerAgrees (exec initializeUserAndChat w).
Proof.
  intros w. split; [discriminate|].
  assert (is_Some (principal (session (ui w)))) as Hprin by (by eexists).
  split; [exact Hprin|].
  exact (proj1 (pointer_names_active_session w) (or_introl Hprin)).
Defined.

(** The backend returned a name made of one space; the provider knows
    "Alice". *)
Lemma blank_backend_name_hides_provider_names_witness :
  let user := User.mk "u1" "alice@example.com" " " "t0" in
  User.name user ≠ "" ∧
  blank (User.name user) ∧
  resolvedName (Some user) Sample.signedIn (Some "Alice A.") = "" ∧
  firstName (resolvedName (Some user) Sample.signedIn (Some "Alice A."))
    = "there".
Proof.
  intros user.
  assert (User.name user ≠ "") as Hname by discriminate.
  assert (blank (User.name user)) as Hblank.
  { intros c Hin. cbn in Hin.
    repeat (apply elem_of_cons in Hin as [-> | Hin]; [reflexivity|]).
    by apply elem_of_nil in Hin. }
  split; [exact Hname|]. split; [exact Hblank|].
  destruct (blank_backend_name_hides_provider_names user Sample.signedIn
              (Some "Alice A.") Hname) as [Heq Hthere].
  split; [rewrite Heq; reflexivity | exact (Hthere Hblank)].
Defined.

(** A provider session without [full_name]. *)
Lemma upsert_name_defaults_to_local_part_witness :
  let user := AuthUser.mk (Some "alice@example.com") None in
  AuthUser.full_name user = None ∧
  displayName user "alice@example.com" = "alice".
Proof.
  intros user. split; [reflexivity|].
  destruct (proj2 (upsert_name_defaults_to_local_part user "alice@example.com")
              (or_introl eq_refl)) as [Heq _].
  rewrite Heq. reflexivity.
Defined.

(** The provider still holds Alice's session, the stored pointer is
    ["abc"], and the backend lists [abc] and returns its history. *)
Lemma reload_resumes_conversation_witness :
  let reply := MessagesReply.mk "abc" 1 [Sample.hello] in
  let alice := AuthSession.mk (AuthUser.mk (Some "alice@example.com") (Some "Alice")) in
  let provider := Returned (AuthReply.mk (Some alice) None) in
  let browser b := Browser.mk b provider in
  let w := mkWorld initialChatState {[ SESSION_KEY := "abc" ]}
             (browser (Sample.with_history (Scripted.ok200 reply)
                         (Sample.listing [Sample.abc; Sample.xyz])))
             [] [] Sample.roomy in
  let e := browser (Sample.with_history (Scripted.ok200 reply) Sample.down) in
  auth_getSession (env w) = (provider, env w) ∧
  Listed (on_ui (with_session (Some alice)) (with_env (env w) w))
    "alice@example.com" "Alice" [Sample.abc; Sample.xyz] e ∧
  pointer w = Some "abc" ∧
  answer (get_messages "abc") e = (Returned reply, browser Sample.down) ∧
  let w' := exec (loadSession true;; initializeUserAndChat) w in
  session (ui w') = Some alice ∧
  (∃ s', chatSession (ui w') = Some s' ∧ ChatSession.id s' = "abc" ∧
         s' ∈ [Sample.abc; Sample.xyz]) ∧
  pointer w' = Some "abc" ∧
  messages (ui w') = [Sample.shown] ∧
  initLoading (ui w') = false ∧
  error (ui w') = None ∧
  storage_log w' = storage_log w.
Proof.
  intros reply alice provider browser w e.
  assert (Listed (on_ui (with_session (Some alice)) (with_env (env w) w))
            "alice@example.com" "Alice" [Sample.abc; Sample.xyz] e)
    as HL by listed.
  split; [reflexivity|]. split; [exact HL|]. split; [reflexivity|].
  split; [reflexivity|].
  exact (reload_resumes_conversation w alice (env w) e (browser Sample.down)
           _ _ "abc" _ Sample.abc reply eq_refl HL eq_refl
           ltac:(discriminate) ltac:(apply list_elem_of_here) eq_refl eq_refl).
Defined.

(** The question "What is Spectra?" on the page without accounts, answered
    with status 500. *)
Lemma legacy_submit_stores_nothing_witness :
  let q := "What is Spectra?" in
  let w := Sample.world (with_input q initialChatState) None
             (Sample.answering [] [Scripted.error500] []) in
  input (ui w) = q ∧
  truthy (trim q) = true ∧
  let w' := exec legacyHandleSubmit w in
  calls w' = [CallSendChatMessage q] ∧
  Scripted.kept (env w') = [] ∧
  messages (ui w') = [Message.mk "1000" TypeUser q None] ∧
  error (ui w') = Some "Backend error: Internal Server Error".
Proof.
  intros q w. split; [reflexivity|]. split; [reflexivity|].
  destruct (legacy_submit_stores_nothing Scripted.kept w q eq_refl eq_refl)
    as (_ & Hcalls & Hkept & _ & _ & _ & Herr).
  split; [exact Hcalls|]. split; [exact Hkept|]. split; [reflexivity|].
  exact (Herr _ _ eq_refl eq_refl).
Defined.

(** A first sign-in in a browser whose storage is full: the session is
    created on the backend, the write of its identifier throws, and the
    tab is left without a session. *)
Lemma refused_write_aborts_initialization_witness :
  let b := Sample.with_create
             (Scripted.ok200 (CreateReply.mk Sample.alice Sample.fresh))
             (Sample.listing []) in
  let w := Sample.crowded Sample.mounted None b in
  let e := Sample.with_create
             (Scripted.ok200 (CreateReply.mk Sample.alice Sample.fresh))
             Sample.down in
  let err := OtherError "The quota has been exceeded." in
  Listed w "alice@example.com" "Alice" [] e ∧
  refusal w Sample.fresh = Some err ∧
  let w' := exec initializeUserAndChat w in
  chatSession (ui w') = None ∧
  pointer w' = None ∧
  messages (ui w') = [] ∧
  error (ui w') = Some "The quota has been exceeded." ∧
  initLoading (ui w') = false ∧
  calls w' = [CallRegisterUser "alice@example.com" "Alice";
              CallGetUserSessions "alice@example.com";
              CallCreateChatSession "alice@example.com" "New Conversation"].
Proof.
  intros b w e err.
  assert (Listed w "alice@example.com" "Alice" [] e) as HL by listed.
  split; [exact HL|]. split; [reflexivity|].
  apply (refused_write_aborts_initialization w _ _ [] e Sample.fresh err HL).
  - by intros s Hin%elem_of_nil.
  - by eexists _, _.
  - reflexivity.
Defined.
